(** * Subtitler: the subtitle pipeline of [app.py]

    A shallow embedding of the four functions of [app.py]
    ([extract_audio_to_mp3], [generate_subtitles], [translate_subtitles],
    [load_translation_model]), of the module-level [language_code_map] and of
    the run block of the script, followed by the properties of the pipeline.

    Python values are modelled as follows.
    - A [str] holding subtitle text is a list of Unicode code points
      ([pystr]); [str.split], [str.join], [str.strip], [str.isdigit] and the
      [in] operator are written out in [Module PyStr].
    - Language names, language codes, messages of exceptions and the
      credential are ASCII literals of the script: [string].
    - A [dict] is a [gmap].
    - Everything outside the script (the filesystem, ffmpeg, the
      speech-to-text service, the translation pipelines, the Unicode tables of
      the interpreter) is a field of the record [External]; the mutable part
      of the process is the record [World], threaded through the monad [M]. *)

From Stdlib Require Import NArith ZArith String Ascii.
From stdpp Require Import gmap strings list fin_maps.

Open Scope list_scope.

(** ** Python strings *)

Module PyStr.

(** A code point. *)
Definition char : Type := N.

(** A Python [str]: a sequence of code points. *)
Definition pystr : Type := list char.

(** The code points of an ASCII literal of the script. *)
Fixpoint lit (s : string) : pystr :=
  match s with
  | EmptyString => []
  | String a s' => N_of_ascii a :: lit s'
  end.

(** ["\n"] *)
Definition LF : char := 10%N.

(** [s.split("\n")]: the pieces of [s] between the line feeds; there is always
    at least one piece, the empty one for the empty string. *)
Fixpoint str_split (s : pystr) : list pystr :=
  match s with
  | [] => [[]]
  | c :: s' =>
      if (c =? LF)%N then [] :: str_split s'
      else match str_split s' with
           | [] => [[c]]
           | l :: ls => (c :: l) :: ls
           end
  end.

(** ["\n".join(ls)] *)
Fixpoint str_join (ls : list pystr) : pystr :=
  match ls with
  | [] => []
  | [l] => l
  | l :: ls' => l ++ LF :: str_join ls'
  end.

(** [s.startswith(p)] *)
Fixpoint str_startswith (p s : pystr) : bool :=
  match p, s with
  | [], _ => true
  | _ :: _, [] => false
  | a :: p', b :: s' => (a =? b)%N && str_startswith p' s'
  end.

(** [sub in s] *)
Fixpoint str_contains (sub s : pystr) : bool :=
  str_startswith sub s ||
  match s with
  | [] => false
  | _ :: s' => str_contains sub s'
  end.

Section Tables.

(** The two tables of the interpreter's Unicode database that [str.strip]
    and [str.isdigit] consult. *)
Variable isspace : char -> bool.
Variable isdigit : char -> bool.

(** [s.lstrip()] *)
Fixpoint str_lstrip (s : pystr) : pystr :=
  match s with
  | [] => []
  | c :: s' => if isspace c then str_lstrip s' else s
  end.

(** [s.rstrip()] *)
Definition str_rstrip (s : pystr) : pystr := rev (str_lstrip (rev s)).

(** [s.strip()] *)
Definition str_strip (s : pystr) : pystr := str_rstrip (str_lstrip s).

(** [s.isdigit()]: at least one character, and all of them digits. *)
Definition str_isdigit (s : pystr) : bool :=
  match s with
  | [] => false
  | _ :: _ => forallb isdigit s
  end.

(** [bool(s)]: a string is truthy when it is not empty. *)
Definition str_truthy (s : pystr) : bool :=
  match s with
  | [] => false
  | _ :: _ => true
  end.

End Tables.

(** The ASCII rows of the two tables. *)
Definition ascii_isspace (c : char) : bool :=
  ((9 <=? c) && (c <=? 13) || (28 <=? c) && (c <=? 32))%N.

Definition ascii_isdigit (c : char) : bool :=
  ((48 <=? c) && (c <=? 57))%N.

End PyStr.

Import PyStr.

(** ** Exceptions and results *)

(** The classes of the exceptions the script meets.  Only subclasses of
    Python's [Exception] are modelled: these are the ones an
    [except Exception] clause catches. *)
Inductive exn_class : Type :=
| CalledProcessError   (* subprocess.run(..., check=True), non-zero exit *)
| OSError              (* I/O faults, with FileNotFoundError *)
| KeyError             (* d[k] on a missing key *)
| IndexError           (* l[i] out of range *)
| ExternalError        (* raised inside openai or transformers *)
| RuntimeError.        (* raised by the script itself *)

(** An exception: its class and the text [str(e)] gives. *)
Record exn : Type := Exn { exn_cls : exn_class; exn_str : string }.

Inductive result (A : Type) : Type :=
| Ok (a : A)
| Raise (e : exn).
Arguments Ok {A} a.
Arguments Raise {A} e.

(** ** The world outside the script *)

(** The name of a temporary file: [tempfile] makes it unique through a
    counter, and ends it with the suffix asked for. *)
Abbreviation path := (nat * string)%type.

Abbreviation bytes := (list Byte.byte).

(** The operations on the filesystem and on processes that can fault. *)
Inductive io_op : Type :=
| IoCreateVideoTemp    (* tempfile.NamedTemporaryFile(suffix=".mp4") *)
| IoWriteVideo         (* video_temp.write(video_file.getbuffer()) *)
| IoCreateAudioTemp    (* tempfile.NamedTemporaryFile(suffix=".mp3") *)
| IoSpawnFfmpeg        (* starting the ffmpeg process *)
| IoRemoveVideo        (* os.remove(video_temp_path) *)
| IoOpenAudio          (* open(audio_path, "rb") *)
| IoRemoveAudio.       (* os.remove(audio_path) *)

(** What the script does that is seen from outside, in order. *)
Inductive event : Type :=
| EvProgress (n : nat)                         (* the progress bar *)
| EvFfmpeg (input output : path)               (* ffmpeg was run *)
| EvTranscribe (audio : path) (key : option string)
                                               (* openai.Audio.transcribe *)
| EvLoadModel (source_lang target_lang : string)
                                               (* pipeline("translation", ...) *)
| EvTranslate (source_lang target_lang : string) (line : pystr)
                                               (* translator(line, ...) *)
| EvToast                                      (* st.toast *)
| EvError (msg : string).                      (* st.error *)

(** The components the script calls and does not define. *)
Record External : Type := {
  (** the whitespace table of [str.strip] *)
  uni_isspace : char -> bool;
  (** the digit table of [str.isdigit] *)
  uni_isdigit : char -> bool;
  (** the fault, if any, of each I/O operation of the run *)
  io_fault : io_op -> option exn;
  (** ffmpeg on the bytes of the input file: its exit status and the bytes it
      leaves in the output file *)
  ffmpeg : bytes -> Z * bytes;
  (** the speech-to-text service on the audio bytes, with the key found in
      [openai.api_key]: the SRT text, or an exception *)
  whisper : bytes -> option string -> result pystr;
  (** building the pipeline of a language pair: the exception, if any *)
  pipeline_load : string -> string -> option exn;
  (** calling the pipeline of a language pair on a line: a list of dicts, or
      an exception *)
  pipeline_call : string -> string -> pystr -> result (list (gmap string pystr))
}.

(** The mutable state of the process. *)
Record World : Type := mkWorld {
  (** the temporary files: name and content *)
  fs : gmap path bytes;
  (** the counter behind the names of [tempfile] *)
  tmp_counter : nat;
  (** the module attribute [openai.api_key] *)
  openai_api_key : option string;
  (** the resources cached by [st.cache_resource] for
      [load_translation_model], by arguments *)
  model_cache : gset (string * string);
  (** [st.session_state["api_key_confirmed"]] *)
  api_key_confirmed : bool;
  (** [st.session_state["srt_content"]] *)
  srt_content : pystr;
  (** the events so far, oldest first *)
  trace : list event
}.

Definition set_fs (f : gmap path bytes -> gmap path bytes) (w : World) : World :=
  mkWorld (f (fs w)) (tmp_counter w) (openai_api_key w) (model_cache w)
          (api_key_confirmed w) (srt_content w) (trace w).

Definition set_tmp_counter (n : nat) (w : World) : World :=
  mkWorld (fs w) n (openai_api_key w) (model_cache w)
          (api_key_confirmed w) (srt_content w) (trace w).

Definition set_api_key (k : option string) (w : World) : World :=
  mkWorld (fs w) (tmp_counter w) k (model_cache w)
          (api_key_confirmed w) (srt_content w) (trace w).

Definition set_model_cache (c : gset (string * string)) (w : World) : World :=
  mkWorld (fs w) (tmp_counter w) (openai_api_key w) c
          (api_key_confirmed w) (srt_content w) (trace w).

Definition set_api_key_confirmed (b : bool) (w : World) : World :=
  mkWorld (fs w) (tmp_counter w) (openai_api_key w) (model_cache w)
          b (srt_content w) (trace w).

Definition set_srt_content (s : pystr) (w : World) : World :=
  mkWorld (fs w) (tmp_counter w) (openai_api_key w) (model_cache w)
          (api_key_confirmed w) s (trace w).

Definition add_event (e : event) (w : World) : World :=
  mkWorld (fs w) (tmp_counter w) (openai_api_key w) (model_cache w)
          (api_key_confirmed w) (srt_content w) (trace w ++ [e]).

(** ** The monad of the script: state and exceptions *)

Definition M (A : Type) : Type := World -> result A * World.

Definition ret {A} (a : A) : M A := fun w => (Ok a, w).

Definition bind {A B} (m : M A) (k : A -> M B) : M B :=
  fun w => match m w with
           | (Ok a, w') => k a w'
           | (Raise e, w') => (Raise e, w')
           end.

(** [raise e] *)
Definition raise {A} (e : exn) : M A := fun w => (Raise e, w).

(** [try: m  except Exception as e: h e] *)
Definition try_except {A} (m : M A) (h : exn -> M A) : M A :=
  fun w => match m w with
           | (Ok a, w') => (Ok a, w')
           | (Raise e, w') => h e w'
           end.

Definition modify (f : World -> World) : M unit := fun w => (Ok tt, f w).

Definition emit (e : event) : M unit := modify (add_event e).

Declare Scope script_scope.
Delimit Scope script_scope with script.
Notation "x <- m ;; k" := (bind m (fun x => k))
  (at level 20, m at level 99, k at level 200) : script_scope.
Notation "m ;; k" := (bind m (fun _ => k))
  (at level 100, k at level 200, right associativity) : script_scope.
Open Scope script_scope.

(** ** The script *)

(** [language_code_map] *)
Definition language_code_map : gmap string string :=
  <["English" := "en"]> (<["Russian" := "ru"]> (<["Ukrainian" := "uk"]>
  (<["Polish" := "pl"]> ∅))).


(** [d[k]] on a dict with string keys: [KeyError] on a missing key. *)
Definition dict_getitem {V} (d : gmap string V) (k : string) : M V :=
  match d !! k with
  | Some v => ret v
  | None => raise (Exn KeyError ("'" +:+ k +:+ "'"))
  end.

(** [l[0]]: [IndexError] on an empty list. *)
Definition list_first {V} (l : list V) : M V :=
  match l with
  | v :: _ => ret v
  | [] => raise (Exn IndexError "list index out of range")
  end.

Section Script.

Variable X : External.

(** An I/O operation faults or goes on. *)
Definition io (op : io_op) : M unit :=
  match io_fault X op with
  | Some e => raise e
  | None => ret tt
  end.

(** [tempfile.NamedTemporaryFile(delete=False, suffix=suffix)]: a new, empty
    file under a name not given before. *)
Definition named_temporary_file (op : io_op) (suffix : string) : M path :=
  io op ;;
  fun w =>
    let p := (tmp_counter w, suffix) in
    (Ok p, set_tmp_counter (S (tmp_counter w)) (set_fs (insert p []) w)).

(** [f.write(data)] on a file opened for writing. *)
Definition file_write (op : io_op) (p : path) (data : bytes) : M unit :=
  io op ;;
  modify (set_fs (insert p data)).

(** [os.remove(p)] *)
Definition os_remove (op : io_op) (p : path) : M unit :=
  io op ;;
  fun w =>
    match fs w !! p with
    | Some _ => (Ok tt, set_fs (delete p) w)
    | None => (Raise (Exn OSError "No such file or directory"), w)
    end.

(** [open(p, "rb")] and the bytes read through the handle. *)
Definition open_rb (op : io_op) (p : path) : M bytes :=
  io op ;;
  fun w =>
    match fs w !! p with
    | Some data => (Ok data, w)
    | None => (Raise (Exn OSError "No such file or directory"), w)
    end.

(** [subprocess.run(["ffmpeg", "-i", input, "-q:a", "0", "-map", "a",
    output, "-y"], check=True)]: ffmpeg overwrites the output file, and a
    non-zero exit status raises [CalledProcessError]. *)
Definition subprocess_run_ffmpeg (input output : path) : M unit :=
  io IoSpawnFfmpeg ;;
  emit (EvFfmpeg input output) ;;
  fun w =>
    match fs w !! input with
    | None => (Raise (Exn CalledProcessError "returned non-zero exit status 1"), w)
    | Some video =>
        let '(returncode, written) := ffmpeg X video in
        let w' := set_fs (insert output written) w in
        if (returncode =? 0)%Z then (Ok tt, w')
        else (Raise (Exn CalledProcessError "returned non-zero exit status"), w')
    end.

(** [set_openai_api_key] *)
Definition set_openai_api_key (api_key : string) : M unit :=
  modify (set_api_key (Some api_key)).

(** [load_translation_model], under [st.cache_resource]: the pipeline of a
    pair is built at the first call for the pair and kept; a call that
    raises keeps nothing.  The handle returned stands for the pipeline of
    the pair. *)
Definition load_translation_model (source_lang target_lang : string)
  : M (string * string) :=
  fun w =>
    if decide ((source_lang, target_lang) ∈ model_cache w)
    then (Ok (source_lang, target_lang), w)
    else
      let w1 := add_event (EvLoadModel source_lang target_lang) w in
      match pipeline_load X source_lang target_lang with
      | Some e => (Raise e, w1)
      | None =>
          (Ok (source_lang, target_lang),
           set_model_cache ({[ (source_lang, target_lang) ]} ∪ model_cache w1) w1)
      end.

(** [translator(line, max_length=512, truncation=True)] *)
Definition call_translator (translator : string * string) (line : pystr)
  : M (list (gmap string pystr)) :=
  emit (EvTranslate (fst translator) (snd translator) line) ;;
  fun w => (pipeline_call X (fst translator) (snd translator) line, w).

(** [extract_audio_to_mp3] *)
Definition extract_audio_to_mp3 (video_file : bytes) : M path :=
  try_except
    (video_temp_path <- named_temporary_file IoCreateVideoTemp ".mp4" ;;
     file_write IoWriteVideo video_temp_path video_file ;;
     audio_output_path <- named_temporary_file IoCreateAudioTemp ".mp3" ;;
     subprocess_run_ffmpeg video_temp_path audio_output_path ;;
     os_remove IoRemoveVideo video_temp_path ;;
     ret audio_output_path)
    (fun e =>
       match exn_cls e with
       | CalledProcessError => raise (Exn RuntimeError ("FFmpeg error: " +:+ exn_str e))
       | _ => raise (Exn RuntimeError ("Unexpected error: " +:+ exn_str e))
       end).

(** [openai.Audio.transcribe(file=f, model="whisper-1",
    response_format="srt")]: the client reads the key from
    [openai.api_key]. *)
Definition audio_transcribe (audio_path : path) (f : bytes) : M pystr :=
  fun w =>
    (whisper X f (openai_api_key w),
     add_event (EvTranscribe audio_path (openai_api_key w)) w).

(** [generate_subtitles] *)
Definition generate_subtitles (audio_path : path) (api_key : string) : M pystr :=
  set_openai_api_key api_key ;;
  f <- open_rb IoOpenAudio audio_path ;;
  transcript <- audio_transcribe audio_path f ;;
  ret transcript.

(** The test of line 54:
    [line.strip() and not line.strip().isdigit() and "-->" not in line]. *)
Definition should_translate (line : pystr) : bool :=
  str_truthy (str_strip (uni_isspace X) line)
  && negb (str_isdigit (uni_isdigit X) (str_strip (uni_isspace X) line))
  && negb (str_contains (lit "-->") line).

(** The [for] loop of [translate_subtitles], on the lines still to visit and
    the list [translated_lines] built so far. *)
Fixpoint translate_loop (translator : string * string) (lines : list pystr)
         (translated_lines : list pystr) : M (list pystr) :=
  match lines with
  | [] => ret translated_lines
  | line :: lines' =>
      if should_translate line then
        translation <- call_translator translator line ;;
        first <- list_first translation ;;
        text <- dict_getitem first "translation_text" ;;
        translate_loop translator lines' (translated_lines ++ [text])
      else
        translate_loop translator lines' (translated_lines ++ [line])
  end.

(** [translate_subtitles] *)
Definition translate_subtitles (subtitles : pystr)
           (source_lang target_lang : string) : M pystr :=
  if decide (source_lang = target_lang) then ret subtitles
  else
    try_except
      (translator <- load_translation_model source_lang target_lang ;;
       translated_lines <- translate_loop translator (str_split subtitles) [] ;;
       ret (str_join translated_lines))
      (fun e => raise (Exn RuntimeError ("Error during translation: " +:+ exn_str e))).

(** The run block of the script (lines 120 to 141), entered when a file is
    uploaded and the button is pressed. *)
Definition run_block (uploaded_file : bytes) (api_key : string)
           (source_language_code target_language_code : string) : M unit :=
  emit (EvProgress 0) ;;
  try_except
    (emit (EvProgress 10) ;;
     audio_path <- extract_audio_to_mp3 uploaded_file ;;
     emit (EvProgress 30) ;;
     subtitles <- generate_subtitles audio_path api_key ;;
     emit (EvProgress 60) ;;
     translated_subtitles <-
       translate_subtitles subtitles source_language_code target_language_code ;;
     emit (EvProgress 90) ;;
     modify (set_srt_content translated_subtitles) ;;
     emit (EvProgress 100) ;;
     emit EvToast ;;
     os_remove IoRemoveAudio audio_path)
    (fun e => emit (EvError ("An error occurred: " +:+ exn_str e))).

(** What one run of the script reads from the widgets of the sidebar. *)
Record Request : Type := {
  api_key : string;
  confirm_api_key : bool;
  source_language : string;
  uploaded_file : option bytes;
  target_language : string;
  create_subtitles_button : bool
}.

(** The confirmation of the key in the sidebar (lines 77 to 82). *)
Definition confirm_key (req : Request) : M unit :=
  if confirm_api_key req then
    match api_key req with
    | EmptyString => emit (EvError "Please enter your API key to proceed.")
    | _ => modify (set_api_key_confirmed true) ;; emit EvToast
    end
  else ret tt.

(** The script past [st.stop()] (lines 87 to 141): the two lookups in
    [language_code_map], then the run block when a file is uploaded and the
    button is pressed. *)
Definition languages_and_run (req : Request) : M unit :=
  source_language_code <- dict_getitem language_code_map (source_language req) ;;
  target_language_code <- dict_getitem language_code_map (target_language req) ;;
  match uploaded_file req with
  | Some file =>
      if create_subtitles_button req
      then run_block file (api_key req) source_language_code target_language_code
      else ret tt
  | None => ret tt
  end.

(** One run of the script, from the sidebar to the run block (lines 70 to
    141).  [st.stop()] ends the run while the key is not confirmed; an
    exception outside the run block ends it as well.  The editor and the
    download button that follow only show [srt_content]. *)
Definition script (req : Request) : M unit :=
  confirm_key req ;;
  fun w =>
    if negb (api_key_confirmed w) then (Ok tt, w)
    else languages_and_run req w.

End Script.

(** ** Views of a run *)

(** Several events at once. *)
Definition add_events (es : list event) (w : World) : World :=
  mkWorld (fs w) (tmp_counter w) (openai_api_key w) (model_cache w)
          (api_key_confirmed w) (srt_content w) (trace w ++ es).

(** The lines the translation model was called on, in order. *)
Definition sent_lines (es : list event) : list pystr :=
  omap (fun e => match e with EvTranslate _ _ line => Some line | _ => None end) es.

(** The events of the three stages (extraction, transcription, translation)
    and of the progress bar of the run block; the others belong to the
    sidebar. *)
Definition pipeline_event (e : event) : bool :=
  match e with
  | EvToast | EvError _ => false
  | _ => true
  end.

(** The I/O operations of [extract_audio_to_mp3]. *)
Definition extraction_ops : list io_op :=
  [IoCreateVideoTemp; IoWriteVideo; IoCreateAudioTemp; IoSpawnFfmpeg; IoRemoveVideo].

(** The error of the extraction stage: the [RuntimeError] that
    [extract_audio_to_mp3] raises, with one of its two messages. *)
Definition ExtractionError (e : exn) : Prop :=
  exn_cls e = RuntimeError /\
  exists cause, exn_str e = "FFmpeg error: " +:+ cause \/
                exn_str e = "Unexpected error: " +:+ cause.

(** The error of the translation stage: the [RuntimeError] that
    [translate_subtitles] raises. *)
Definition TranslationError (e : exn) : Prop :=
  exn_cls e = RuntimeError /\
  exists cause, exn_str e = "Error during translation: " +:+ cause.

Section Views.

Variable X : External.

(** What line 55 and line 56 make of a line: the text of the first dict the
    pipeline returns. *)
Definition translated_text (translator : string * string) (line : pystr)
  : result pystr :=
  match pipeline_call X (fst translator) (snd translator) line with
  | Raise e => Raise e
  | Ok [] => Raise (Exn IndexError "list index out of range")
  | Ok (first :: _) =>
      match first !! "translation_text" with
      | Some text => Ok text
      | None => Raise (Exn KeyError "'translation_text'")
      end
  end.

(** The loop without the world: the list built, or the exception that ends
    the loop, and the lines the model was called on. *)
Fixpoint loop_outcome (translator : string * string) (lines : list pystr)
         (translated_lines : list pystr) : result (list pystr) * list pystr :=
  match lines with
  | [] => (Ok translated_lines, [])
  | line :: lines' =>
      if should_translate X line then
        match translated_text translator line with
        | Ok text =>
            let '(r, sent) :=
              loop_outcome translator lines' (translated_lines ++ [text]) in
            (r, line :: sent)
        | Raise e => (Raise e, [line])
        end
      else loop_outcome translator lines' (translated_lines ++ [line])
  end.

(** How a visited line and the item appended for it are related. *)
Definition line_outcome (translator : string * string) (line item : pystr) : Prop :=
  if should_translate X line then translated_text translator line = Ok item
  else item = line.

(** An index line: entirely digits. *)
Definition index_line (line : pystr) : Prop :=
  line <> [] /\ Forall (fun c => uni_isdigit X c = true) line.

(** A timing line: it holds the delimiter ["-->"]. *)
Definition timing_line (line : pystr) : Prop :=
  exists pre post : pystr, line = pre ++ lit "-->" ++ post.

(** A blank line: empty, or whitespace only. *)
Definition blank_line (line : pystr) : Prop :=
  Forall (fun c => uni_isspace X c = true) line.

(** The test of line 54 in words: the stripped line is not empty, is not made
    of digits only, and the line does not hold the delimiter. *)
Definition translatable (line : pystr) : Prop :=
  str_strip (uni_isspace X) line <> [] /\
  ~ Forall (fun c => uni_isdigit X c = true) (str_strip (uni_isspace X) line) /\
  ~ timing_line line.


(** Something goes wrong in the extraction of a video: ffmpeg exits non-zero
    or one of the I/O operations faults. *)
Definition extraction_fails (video_file : bytes) : Prop :=
  fst (ffmpeg X video_file) <> 0%Z \/
  exists op, op ∈ extraction_ops /\ io_fault X op <> None.

End Views.

(** ** Sample runs *)

Module Demo.

(** Two caption blocks, as the speech-to-text service writes them. *)
Definition srt : pystr :=
  str_join [lit "1"; lit "00:00:01,000 --> 00:00:02,000"; lit "Hello world"; [];
            lit "2"; lit "00:00:02,000 --> 00:00:03,000"; lit "Bye"; []].

Definition video : bytes := [Byte.x00; Byte.x01; Byte.x02].

(** Every component answers: ffmpeg copies its input, the service returns
    [srt], the model puts a tag before the line. *)
Definition good : External := {|
  uni_isspace := ascii_isspace;
  uni_isdigit := ascii_isdigit;
  io_fault := fun _ => None;
  ffmpeg := fun v => (0%Z, v);
  whisper := fun _ _ => Ok srt;
  pipeline_load := fun _ _ => None;
  pipeline_call := fun _ _ line => Ok [ {[ "translation_text" := lit "[pl] " ++ line ]} ]
|}.

(** ffmpeg exits with status 1 and leaves one byte in the output file. *)
Definition ffmpeg_fails : External := {|
  uni_isspace := ascii_isspace;
  uni_isdigit := ascii_isdigit;
  io_fault := fun _ => None;
  ffmpeg := fun v => (1%Z, [Byte.xff]);
  whisper := fun _ _ => Ok srt;
  pipeline_load := fun _ _ => None;
  pipeline_call := fun _ _ line => Ok [ {[ "translation_text" := lit "[pl] " ++ line ]} ]
|}.

(** The service refuses the key. *)
Definition key_refused : External := {|
  uni_isspace := ascii_isspace;
  uni_isdigit := ascii_isdigit;
  io_fault := fun _ => None;
  ffmpeg := fun v => (0%Z, v);
  whisper := fun _ _ => Raise (Exn ExternalError "Incorrect API key provided");
  pipeline_load := fun _ _ => None;
  pipeline_call := fun _ _ line => Ok [ {[ "translation_text" := lit "[pl] " ++ line ]} ]
|}.

(** The model raises on the line ["Bye"]. *)
Definition line_fails : External := {|
  uni_isspace := ascii_isspace;
  uni_isdigit := ascii_isdigit;
  io_fault := fun _ => None;
  ffmpeg := fun v => (0%Z, v);
  whisper := fun _ _ => Ok srt;
  pipeline_load := fun _ _ => None;
  pipeline_call := fun _ _ line =>
    if decide (line = lit "Bye") then Raise (Exn ExternalError "out of memory")
    else Ok [ {[ "translation_text" := lit "[pl] " ++ line ]} ]
|}.


(** A fresh process: no file, no key, no model, an empty session. *)
Definition w0 : World := mkWorld ∅ 0 None ∅ false [] [].

(** The user confirms a key, uploads a video and asks for Polish subtitles
    of an English video. *)
Definition request : Request := {|
  api_key := "sk-demo";
  confirm_api_key := true;
  source_language := "English";
  uploaded_file := Some video;
  target_language := "Polish";
  create_subtitles_button := true
|}.

(** The translation of [srt] by the model of [good]. *)
Definition srt_pl : pystr :=
  str_join [lit "1"; lit "00:00:01,000 --> 00:00:02,000"; lit "[pl] Hello world"; [];
            lit "2"; lit "00:00:02,000 --> 00:00:03,000"; lit "[pl] Bye"; []].

End Demo.

(** ** More views of a run *)

(** The language pairs whose model was built, in order. *)
Definition loaded_models (es : list event) : list (string * string) :=
  omap (fun e => match e with EvLoadModel s t => Some (s, t) | _ => None end) es.

(** The values given to the progress bar, in order. *)
Definition progress_values (es : list event) : list nat :=
  omap (fun e => match e with EvProgress n => Some n | _ => None end) es.

(** The calls of the speech-to-text service: the audio file and the key. *)
Definition transcribe_calls (es : list event) : list (path * option string) :=
  omap (fun e => match e with EvTranscribe p k => Some (p, k) | _ => None end) es.

(** The runs of ffmpeg: the input file and the output file. *)
Definition ffmpeg_runs (es : list event) : list (path * path) :=
  omap (fun e => match e with EvFfmpeg i o => Some (i, o) | _ => None end) es.

(** What the two [except] clauses of [extract_audio_to_mp3] make of an
    exception (lines 31 to 34). *)
Definition extraction_error (e : exn) : exn :=
  match exn_cls e with
  | CalledProcessError => Exn RuntimeError ("FFmpeg error: " +:+ exn_str e)
  | _ => Exn RuntimeError ("Unexpected error: " +:+ exn_str e)
  end.

(** The first fault among I/O operations taken in order. *)
Definition first_fault (X : External) (ops : list io_op) : option exn :=
  head (omap (io_fault X) ops).

(** The I/O operations of [extract_audio_to_mp3] up to the start of ffmpeg. *)
Definition ops_before_ffmpeg : list io_op :=
  [IoCreateVideoTemp; IoWriteVideo; IoCreateAudioTemp; IoSpawnFfmpeg].

(** The item the loop of [translate_subtitles] appends for a line when the
    model answers it: the text of the model for a line that passes the test
    of line 54, the line itself otherwise. *)
Definition line_item (X : External) (translator : string * string)
           (line : pystr) : pystr :=
  if should_translate X line then
    match translated_text X translator line with
    | Ok text => text
    | Raise _ => line
    end
  else line.

(** The model answers a line, if the line is one that is sent to it. *)
Definition answered (X : External) (translator : string * string)
           (line : pystr) : Prop :=
  should_translate X line = true ->
  exists text, translated_text X translator line = Ok text.

(** The exception that ends the three stages of the run block (lines 123 to
    130), if one of them raises. *)
Definition first_stage_error (X : External) (file : bytes) (key s t : string)
           (w : World) : option exn :=
  match extract_audio_to_mp3 X file
          (add_event (EvProgress 10) (add_event (EvProgress 0) w)) with
  | (Raise e, _) => Some e
  | (Ok audio_path, w1) =>
      match generate_subtitles X audio_path key (add_event (EvProgress 30) w1) with
      | (Raise e, _) => Some e
      | (Ok subtitles, w2) =>
          match translate_subtitles X subtitles s t (add_event (EvProgress 60) w2) with
          | (Raise e, _) => Some e
          | (Ok _, _) => None
          end
      end
  end.


(** The stages of the run block. *)
Inductive stage : Type := Extraction | Transcription | Translation.

(** The first stage of the run block that raises, if one does. *)
Definition first_failed_stage (X : External) (file : bytes) (key s t : string)
           (w : World) : option stage :=
  match extract_audio_to_mp3 X file
          (add_event (EvProgress 10) (add_event (EvProgress 0) w)) with
  | (Raise _, _) => Some Extraction
  | (Ok audio_path, w1) =>
      match generate_subtitles X audio_path key (add_event (EvProgress 30) w1) with
      | (Raise _, _) => Some Transcription
      | (Ok subtitles, w2) =>
          match translate_subtitles X subtitles s t (add_event (EvProgress 60) w2) with
          | (Raise _, _) => Some Translation
          | (Ok _, _) => None
          end
      end
  end.

(** The exception raised inside the [try] of the run block (lines 123 to
    138), if any: the one of the first stage that raises, or else the one of
    the removal of the audio file. *)
Definition run_block_error (X : External) (file : bytes) (key s t : string)
           (w : World) : option exn :=
  match extract_audio_to_mp3 X file
          (add_event (EvProgress 10) (add_event (EvProgress 0) w)) with
  | (Raise e, _) => Some e
  | (Ok audio_path, w1) =>
      match generate_subtitles X audio_path key (add_event (EvProgress 30) w1) with
      | (Raise e, _) => Some e
      | (Ok subtitles, w2) =>
          match translate_subtitles X subtitles s t (add_event (EvProgress 60) w2) with
          | (Raise e, _) => Some e
          | (Ok translated_subtitles, w3) =>
              match os_remove X IoRemoveAudio audio_path
                      (add_event EvToast
                         (add_event (EvProgress 100)
                            (set_srt_content translated_subtitles
                               (add_event (EvProgress 90) w3)))) with
              | (Raise e, _) => Some e
              | (Ok _, _) => None
              end
          end
      end
  end.

(** ** The test of line 54, said without [str.strip] *)

(** [core] is [line] without the whitespace at its two ends: [line] is [core]
    between two runs of whitespace, and [core] neither starts nor ends with
    whitespace. *)
Definition stripped_content (X : External) (line core : pystr) : Prop :=
  (exists ws1 ws2 : pystr,
      line = ws1 ++ core ++ ws2 /\
      Forall (fun c => uni_isspace X c = true) ws1 /\
      Forall (fun c => uni_isspace X c = true) ws2) /\
  (forall c, head core = Some c -> uni_isspace X c = false) /\
  (forall c, last core = Some c -> uni_isspace X c = false).

(** The line has a stripped content that is not empty and not made of digits
    only, and the line does not hold ["-->"]. *)
Definition passes_line_test (X : External) (line : pystr) : Prop :=
  exists core,
    stripped_content X line core /\
    core <> [] /\
    ~ Forall (fun c => uni_isdigit X c = true) core /\
    ~ timing_line line.

(** ** The editor *)

(** The editor and the download button (lines 143 to 159), shown when the
    session holds subtitles. [edited_srt_content] is what [st.text_area]
    returns, the text in the editor; the result is the data given to
    [st.download_button], [None] when nothing is shown. *)
Definition editor (edited_srt_content : pystr) : M (option pystr) :=
  fun w =>
    if str_truthy (srt_content w) then
      let w1 :=
        if decide (edited_srt_content <> srt_content w)
        then set_srt_content edited_srt_content w
        else w in
      (Ok (Some (srt_content w1)), w1)
    else (Ok None, w).

(** ** Sample faults *)

Module Faults.

(** ffmpeg is not installed: starting it raises. *)
Definition no_ffmpeg : External := {|
  uni_isspace := ascii_isspace;
  uni_isdigit := ascii_isdigit;
  io_fault := fun op =>
    match op with
    | IoSpawnFfmpeg => Some (Exn OSError "No such file or directory: 'ffmpeg'")
    | _ => None
    end;
  ffmpeg := fun v => (0%Z, v);
  whisper := fun _ _ => Ok Demo.srt;
  pipeline_load := fun _ _ => None;
  pipeline_call := fun _ _ line => Ok [ {[ "translation_text" := lit "[pl] " ++ line ]} ]
|}.

(** The temporary video file cannot be removed. *)
Definition remove_fails : External := {|
  uni_isspace := ascii_isspace;
  uni_isdigit := ascii_isdigit;
  io_fault := fun op =>
    match op with
    | IoRemoveVideo => Some (Exn OSError "Permission denied")
    | _ => None
    end;
  ffmpeg := fun v => (0%Z, v);
  whisper := fun _ _ => Ok Demo.srt;
  pipeline_load := fun _ _ => None;
  pipeline_call := fun _ _ line => Ok [ {[ "translation_text" := lit "[pl] " ++ line ]} ]
|}.

(** The audio file cannot be opened. *)
Definition open_fails : External := {|
  uni_isspace := ascii_isspace;
  uni_isdigit := ascii_isdigit;
  io_fault := fun op =>
    match op with
    | IoOpenAudio => Some (Exn OSError "Permission denied")
    | _ => None
    end;
  ffmpeg := fun v => (0%Z, v);
  whisper := fun _ _ => Ok Demo.srt;
  pipeline_load := fun _ _ => None;
  pipeline_call := fun _ _ line => Ok [ {[ "translation_text" := lit "[pl] " ++ line ]} ]
|}.

(** No model exists for the pair. *)
Definition no_model : External := {|
  uni_isspace := ascii_isspace;
  uni_isdigit := ascii_isdigit;
  io_fault := fun _ => None;
  ffmpeg := fun v => (0%Z, v);
  whisper := fun _ _ => Ok Demo.srt;
  pipeline_load := fun _ _ => Some (Exn ExternalError "model not found");
  pipeline_call := fun _ _ line => Ok [ {[ "translation_text" := lit "[pl] " ++ line ]} ]
|}.

(** A document of indices, timings and blank lines only. *)
Definition structure_only : pystr :=
  str_join [lit "1"; lit "00:00:01,000 --> 00:00:02,000"; lit "  "; [];
            lit " 2 "; lit "00:00:02,000 --> 00:00:03,000"; []].

(** A world that holds the audio file of a former extraction. *)
Definition w_audio : World :=
  mkWorld {[ (1, ".mp3") := Demo.video ]} 2 None ∅ true [] [].

(** A session that holds subtitles. *)
Definition w_subtitles : World :=
  mkWorld ∅ 2 (Some "sk-demo") ∅ true Demo.srt_pl [].

End Faults.

(** ** Sample evaluations *)

(** The string operations on small inputs, as the interpreter answers. *)
Example str_split_trailing :
  str_split (lit "a" ++ LF :: lit "b" ++ [LF]) = [lit "a"; lit "b"; []].
Proof. reflexivity. Qed.

Example str_split_empty : str_split [] = [[]].
Proof. reflexivity. Qed.

Example str_join_three : str_join [lit "a"; []; lit "b"] = lit "a" ++ LF :: LF :: lit "b".
Proof. reflexivity. Qed.

Example str_strip_padded : str_strip ascii_isspace (lit "  12 ") = lit "12".
Proof. reflexivity. Qed.

Example str_isdigit_padded : str_isdigit ascii_isdigit (lit " 12") = false.
Proof. reflexivity. Qed.

Example str_contains_arrow :
  str_contains (lit "-->") (lit "00:00:01,000 --> 00:00:02,000") = true.
Proof. reflexivity. Qed.

(** The test of line 54 on the kinds of lines of a caption file. *)
Example should_translate_samples :
  map (should_translate Demo.good)
      [lit "Hello world"; lit "12"; lit " 12 "; lit "12 a"; []; lit "   ";
       lit "00:00:01,000 --> 00:00:02,000"; lit "a --> b"]
  = [true; false; false; true; false; false; false; false].
Proof. reflexivity. Qed.

(** The translation of [Demo.srt] from English to Polish: one model built,
    two lines sent. *)
Example translate_demo :
  translate_subtitles Demo.good Demo.srt "en" "pl" Demo.w0
  = (Ok Demo.srt_pl,
     mkWorld ∅ 0 None {[ ("en", "pl") ]} false []
             [EvLoadModel "en" "pl";
              EvTranslate "en" "pl" (lit "Hello world");
              EvTranslate "en" "pl" (lit "Bye")]).
Proof. vm_compute. reflexivity. Qed.

(** ** Lemmas on the string operations *)

Section PyStrFacts.

Lemma str_split_nonempty (s : pystr) : str_split s <> [].
Proof.
  induction s as [|c s IH]; simpl; [discriminate|].
  destruct (c =? LF)%N; [discriminate|].
  destruct (str_split s); discriminate.
Qed.

(** Joining the pieces gives the string back. *)
Lemma str_join_split (s : pystr) : str_join (str_split s) = s.
Proof.
  induction s as [|c s IH]; simpl; [reflexivity|].
  destruct (c =? LF)%N eqn:E.
  - apply N.eqb_eq in E. subst c.
    pose proof (str_split_nonempty s) as Hne.
    destruct (str_split s) as [|l ls]; [congruence|].
    simpl. simpl in IH. rewrite IH. reflexivity.
  - pose proof (str_split_nonempty s) as Hne.
    destruct (str_split s) as [|l ls]; [congruence|].
    destruct ls as [|l' ls]; simpl in *; rewrite IH; reflexivity.
Qed.

(** A string without a line feed is a single piece. *)
Lemma str_split_no_LF (s : pystr) : LF ∉ s -> str_split s = [s].
Proof.
  induction s as [|c s IH]; simpl; intros H; [reflexivity|].
  apply not_elem_of_cons in H as [Hc Hs].
  destruct (c =? LF)%N eqn:E.
  - apply N.eqb_eq in E. congruence.
  - rewrite (IH Hs). reflexivity.
Qed.



(** The pieces of a split hold no line feed. *)
Lemma str_split_pieces (s : pystr) : Forall (fun l => LF ∉ l) (str_split s).
Proof.
  induction s as [|c s IH]; simpl.
  - constructor; [apply not_elem_of_nil|constructor].
  - destruct (c =? LF)%N eqn:E.
    + constructor; [apply not_elem_of_nil|exact IH].
    + pose proof (str_split_nonempty s) as Hne.
      destruct (str_split s) as [|l ls]; [congruence|].
      inversion IH; subst. constructor; [|assumption].
      apply not_elem_of_cons. split; [|assumption].
      intros Heq. apply N.eqb_neq in E. congruence.
Qed.

Lemma str_startswith_spec (p s : pystr) :
  str_startswith p s = true <-> exists post, s = p ++ post.
Proof.
  revert s. induction p as [|a p IH]; intros s; simpl.
  - split; [intros _; exists s; reflexivity|reflexivity].
  - destruct s as [|b s].
    + split; [discriminate|intros [post H]; discriminate].
    + rewrite andb_true_iff, N.eqb_eq, IH. split.
      * intros [-> [post ->]]. exists post. reflexivity.
      * intros [post H]. injection H as -> ->. eauto.
Qed.

(** [sub in s] holds exactly when [sub] occurs somewhere in [s]. *)
Lemma str_contains_spec (sub s : pystr) :
  str_contains sub s = true <-> exists pre post, s = pre ++ sub ++ post.
Proof.
  induction s as [|b s IH]; simpl; rewrite orb_true_iff, str_startswith_spec.
  - split.
    + intros [[post H]|H]; [|discriminate]. exists [], post. exact H.
    + intros [pre [post H]]. left.
      destruct pre; [exists post; exact H|discriminate].
  - rewrite IH. split.
    + intros [[post H]|[pre [post H]]].
      * exists [], post. exact H.
      * exists (b :: pre), post. rewrite H. reflexivity.
    + intros [pre [post H]]. destruct pre as [|c pre].
      * left. exists post. exact H.
      * right. injection H as -> ->. eauto.
Qed.

Section Tables.

Variable isspace : char -> bool.
Variable isdigit : char -> bool.

Lemma str_lstrip_Forall (P : char -> Prop) (s : pystr) :
  Forall P s -> Forall P (str_lstrip isspace s).
Proof.
  induction 1 as [|c s Hc Hs IH]; simpl; [constructor|].
  destruct (isspace c); [exact IH|constructor; assumption].
Qed.

(** Every character of [s.strip()] is a character of [s]. *)
Lemma str_strip_Forall (P : char -> Prop) (s : pystr) :
  Forall P s -> Forall P (str_strip isspace s).
Proof.
  intros H. unfold str_strip, str_rstrip.
  apply Forall_rev, str_lstrip_Forall, Forall_rev, str_lstrip_Forall, H.
Qed.

(** [s.lstrip()] is [s] without a run of whitespace at its start. *)
Lemma str_lstrip_decompose (s : pystr) :
  exists ws, s = ws ++ str_lstrip isspace s /\
             Forall (fun c => isspace c = true) ws.
Proof.
  induction s as [|c s [ws [E Hws]]]; simpl.
  - exists []. split; [reflexivity|constructor].
  - destruct (isspace c) eqn:Ec.
    + exists (c :: ws). split; [simpl; congruence|constructor; assumption].
    + exists []. split; [reflexivity|constructor].
Qed.

(** [s.lstrip()] does not start with whitespace. *)
Lemma str_lstrip_head (s : pystr) (c : char) (t : pystr) :
  str_lstrip isspace s = c :: t -> isspace c = false.
Proof.
  induction s as [|d s IH]; simpl; [discriminate|].
  destruct (isspace d) eqn:Ed; [exact IH|].
  intros H. injection H as -> _. exact Ed.
Qed.

(** [s.strip()] is [s] without a run of whitespace at each end. *)
Lemma str_strip_decompose (s : pystr) :
  exists ws1 ws2, s = ws1 ++ str_strip isspace s ++ ws2 /\
             Forall (fun c => isspace c = true) ws1 /\
             Forall (fun c => isspace c = true) ws2.
Proof.
  destruct (str_lstrip_decompose s) as [ws1 [E1 H1]].
  destruct (str_lstrip_decompose (rev (str_lstrip isspace s)))
    as [ws2 [E2 H2]].
  exists ws1, (rev ws2). split; [|split].
  - unfold str_strip, str_rstrip. rewrite <- rev_app_distr, <- E2.
    rewrite rev_involutive. exact E1.
  - exact H1.
  - apply Forall_rev, H2.
Qed.

(** A string of whitespace only strips to the empty string. *)
Lemma str_strip_blank (s : pystr) :
  Forall (fun c => isspace c = true) s -> str_strip isspace s = [].
Proof.
  intros H. assert (E : str_lstrip isspace s = []).
  { induction H as [|c s Hc Hs IH]; simpl; [reflexivity|].
    rewrite Hc. exact IH. }
  unfold str_strip, str_rstrip. rewrite E. reflexivity.
Qed.

Lemma str_isdigit_spec (s : pystr) :
  str_isdigit isdigit s = true <->
  s <> [] /\ Forall (fun c => isdigit c = true) s.
Proof.
  destruct s as [|c s].
  - simpl. split; [discriminate|intros [H _]; congruence].
  - unfold str_isdigit. rewrite forallb_forall, Forall_forall.
    split.
    + intros H. split; [discriminate|].
      intros x Hx. apply H, list_elem_of_In, Hx.
    + intros [_ H] x Hx. apply H, list_elem_of_In, Hx.
Qed.

Lemma str_truthy_spec (s : pystr) : str_truthy s = true <-> s <> [].
Proof. destruct s; simpl; split; congruence. Qed.

End Tables.

End PyStrFacts.

(** ** Facts on the world *)

Lemma add_events_nil (w : World) : add_events [] w = w.
Proof. destruct w. unfold add_events. simpl. rewrite app_nil_r. reflexivity. Qed.

Lemma add_event_add_events (e : event) (es : list event) (w : World) :
  add_events es (add_event e w) = add_events (e :: es) w.
Proof.
  unfold add_events, add_event. simpl. rewrite <- app_assoc. reflexivity.
Qed.

Lemma sent_lines_app (es1 es2 : list event) :
  sent_lines (es1 ++ es2) = sent_lines es1 ++ sent_lines es2.
Proof. apply omap_app. Qed.

Lemma sent_lines_translate (s t : string) (lines : list pystr) :
  sent_lines (map (EvTranslate s t) lines) = lines.
Proof.
  induction lines as [|l lines IH]; [reflexivity|].
  simpl. unfold sent_lines in *. simpl. rewrite IH. reflexivity.
Qed.

(** ** The loop of [translate_subtitles] *)

Section LoopFacts.

Variable X : External.
Variable translator : string * string.

Lemma translate_call_step (line : pystr) (w : World) :
  (translation <- call_translator X translator line ;;
   first <- list_first translation ;;
   dict_getitem first "translation_text") w
  = (translated_text X translator line,
     add_event (EvTranslate (fst translator) (snd translator) line) w).
Proof.
  unfold bind, call_translator, emit, modify, translated_text. simpl.
  destruct (pipeline_call X _ _ line) as [[|first rest]|e]; simpl;
    try reflexivity.
  unfold dict_getitem. destruct (first !! "translation_text"); reflexivity.
Qed.

(** The loop in the world is the loop without it, and one event for each
    call of the model. *)
Lemma translate_loop_outcome (lines acc : list pystr) (w : World) :
  translate_loop X translator lines acc w =
  (fst (loop_outcome X translator lines acc),
   add_events (map (EvTranslate (fst translator) (snd translator))
                   (snd (loop_outcome X translator lines acc))) w).
Proof.
  revert acc w. induction lines as [|line lines IH]; intros acc w; simpl.
  - rewrite add_events_nil. reflexivity.
  - destruct (should_translate X line) eqn:Et; [|apply IH].
    pose proof (translate_call_step line w) as Hstep.
    unfold bind in Hstep |- *.
    destruct (call_translator X translator line w) as [[translation|e] w1].
    + destruct (list_first translation w1) as [[first|e] w2].
      * destruct (dict_getitem first "translation_text" w2) as [[text|e] w3];
          injection Hstep as Hr Hw; rewrite <- Hr; subst w3.
        -- rewrite IH.
           destruct (loop_outcome X translator lines (acc ++ [text])) as [r sent].
           simpl. rewrite add_event_add_events. reflexivity.
        -- reflexivity.
      * injection Hstep as Hr Hw. rewrite <- Hr. subst w2. reflexivity.
    + injection Hstep as Hr Hw. rewrite <- Hr. subst w1. reflexivity.
Qed.

(** A loop that ends well appended one item for each line, and called the
    model on the lines that pass the test, in order. *)
Lemma loop_outcome_ok (lines acc out : list pystr) :
  fst (loop_outcome X translator lines acc) = Ok out ->
  exists items,
    out = acc ++ items /\
    Forall2 (line_outcome X translator) lines items /\
    snd (loop_outcome X translator lines acc)
    = filter (fun l => should_translate X l = true) lines.
Proof.
  revert acc. induction lines as [|line lines IH]; intros acc; simpl.
  - intros [= <-]. exists []. rewrite app_nil_r. repeat split. constructor.
  - unfold line_outcome. rewrite filter_cons.
    destruct (should_translate X line) eqn:Et.
    + destruct (translated_text X translator line) as [text|e] eqn:Etext;
        [|discriminate].
      specialize (IH (acc ++ [text])).
      destruct (loop_outcome X translator lines (acc ++ [text])) as [r sent].
      simpl in *.
      intros Hr. destruct (IH Hr) as [items [-> [HF Hs]]].
      exists (text :: items). rewrite <- app_assoc. split; [reflexivity|].
      split; [constructor; [rewrite Et; exact Etext|exact HF]|].
      destruct (decide (true = true)); [|congruence]. rewrite Hs. reflexivity.
    + intros Hr. destruct (IH _ Hr) as [items [-> [HF Hs]]].
      exists (line :: items). rewrite <- app_assoc. split; [reflexivity|].
      split; [constructor; [rewrite Et; reflexivity|exact HF]|].
      destruct (decide (false = true)); [congruence|]. exact Hs.
Qed.

(** Whatever the end of the loop, the model is called only on lines of the
    input that pass the test. *)
Lemma loop_outcome_sent (lines acc : list pystr) (line : pystr) :
  line ∈ snd (loop_outcome X translator lines acc) ->
  line ∈ lines /\ should_translate X line = true.
Proof.
  revert acc. induction lines as [|l lines IH]; intros acc; simpl.
  - intros H. apply elem_of_nil in H. contradiction.
  - destruct (should_translate X l) eqn:Et.
    + destruct (translated_text X translator l) as [text|e].
      * specialize (IH (acc ++ [text])).
        destruct (loop_outcome X translator lines (acc ++ [text])) as [r sent].
        simpl in *.
        intros H. apply elem_of_cons in H as [->|H].
        -- split; [apply list_elem_of_here|exact Et].
        -- destruct (IH H) as [H1 H2].
           split; [apply list_elem_of_further, H1|exact H2].
      * simpl. intros H. apply list_elem_of_singleton in H as ->.
        split; [apply list_elem_of_here|exact Et].
    + intros H. destruct (IH _ H) as [H1 H2].
      split; [apply list_elem_of_further, H1|exact H2].
Qed.

(** One line that passes the test and whose translation raises ends the
    loop with an exception. *)
Lemma loop_outcome_raise (lines acc : list pystr) (line : pystr) (e : exn) :
  line ∈ lines -> should_translate X line = true ->
  translated_text X translator line = Raise e ->
  exists e', fst (loop_outcome X translator lines acc) = Raise e'.
Proof.
  intros Hin Ht He. revert acc.
  induction lines as [|l lines IH]; intros acc; simpl.
  - apply elem_of_nil in Hin. contradiction.
  - destruct (decide (l = line)) as [->|Hne].
    + rewrite Ht, He. simpl. eauto.
    + apply elem_of_cons in Hin as [->|Hin]; [congruence|].
      destruct (should_translate X l).
      * destruct (translated_text X translator l) as [text|e1]; [|simpl; eauto].
        destruct (IH Hin (acc ++ [text])) as [e' He'].
        destruct (loop_outcome X translator lines (acc ++ [text])) as [r sent].
        simpl in *. eauto.
      * apply IH, Hin.
Qed.

End LoopFacts.

(** ** The test of line 54 and [translate_subtitles] *)

Section TranslateFacts.

Variable X : External.

(** The test of line 54 says what [translatable] says. *)
Lemma should_translate_spec (line : pystr) :
  should_translate X line = true <-> translatable X line.
Proof.
  unfold should_translate, translatable.
  rewrite !andb_true_iff, !negb_true_iff, str_truthy_spec.
  rewrite <- not_true_iff_false, <- not_true_iff_false.
  rewrite str_isdigit_spec, str_contains_spec.
  unfold timing_line. split.
  - intros [[Hne Hd] Hc]. split; [exact Hne|]. split; [|exact Hc].
    intros HF. apply Hd. split; assumption.
  - intros [Hne [Hd Hc]]. split; [split|]; [exact Hne| |exact Hc].
    intros [_ HF]. apply Hd, HF.
Qed.

Lemma index_line_not_translated (line : pystr) :
  index_line X line -> should_translate X line = false.
Proof.
  intros [_ HF]. apply not_true_iff_false. intros Ht.
  apply should_translate_spec in Ht as [_ [Hd _]].
  apply Hd, str_strip_Forall, HF.
Qed.

Lemma timing_line_not_translated (line : pystr) :
  timing_line line -> should_translate X line = false.
Proof.
  intros Htl. apply not_true_iff_false. intros Ht.
  apply should_translate_spec in Ht as [_ [_ Hc]]. apply Hc, Htl.
Qed.

Lemma blank_line_not_translated (line : pystr) :
  blank_line X line -> should_translate X line = false.
Proof.
  intros Hb. apply not_true_iff_false. intros Ht.
  apply should_translate_spec in Ht as [Hne _].
  apply Hne, str_strip_blank, Hb.
Qed.

(** A line that passes the test is no index line, no timing line and no
    blank line. *)
Lemma translatable_textual (line : pystr) :
  translatable X line ->
  ~ index_line X line /\ ~ timing_line line /\ ~ blank_line X line.
Proof.
  intros Ht. apply should_translate_spec in Ht.
  repeat split; intros H.
  - rewrite index_line_not_translated in Ht by exact H. discriminate.
  - rewrite timing_line_not_translated in Ht by exact H. discriminate.
  - rewrite blank_line_not_translated in Ht by exact H. discriminate.
Qed.

(** [translate_subtitles] on twice the same code: line 47 and line 48. *)
Lemma translate_subtitles_same (doc : pystr) (L : string) (w : World) :
  translate_subtitles X doc L L w = (Ok doc, w).
Proof.
  unfold translate_subtitles. destruct (decide (L = L)); [reflexivity|congruence].
Qed.

(** [load_translation_model] returns the handle of the pair or raises; it
    calls no model and touches neither the files nor the key. *)
Lemma load_translation_model_inv (s t : string) (w : World) :
  exists es,
    trace (snd (load_translation_model X s t w)) = trace w ++ es /\
    sent_lines es = [] /\
    fs (snd (load_translation_model X s t w)) = fs w /\
    openai_api_key (snd (load_translation_model X s t w)) = openai_api_key w /\
    (fst (load_translation_model X s t w) = Ok (s, t) \/
     exists e, fst (load_translation_model X s t w) = Raise e).
Proof.
  unfold load_translation_model.
  destruct (decide ((s, t) ∈ model_cache w)).
  - exists []. simpl. rewrite app_nil_r. auto 6.
  - exists [EvLoadModel s t].
    destruct (pipeline_load X s t) as [e|]; simpl; eauto 8.
Qed.

(** [translate_subtitles] on a pair of two different codes, step by step. *)
Lemma translate_subtitles_ne (doc : pystr) (s t : string) (w : World) :
  s <> t ->
  translate_subtitles X doc s t w =
  match load_translation_model X s t w with
  | (Ok tr, w1) =>
      let o := loop_outcome X tr (str_split doc) [] in
      let w2 := add_events (map (EvTranslate (fst tr) (snd tr)) (snd o)) w1 in
      match fst o with
      | Ok items => (Ok (str_join items), w2)
      | Raise e =>
          (Raise (Exn RuntimeError ("Error during translation: " +:+ exn_str e)), w2)
      end
  | (Raise e, w1) =>
      (Raise (Exn RuntimeError ("Error during translation: " +:+ exn_str e)), w1)
  end.
Proof.
  intros Hne. unfold translate_subtitles.
  destruct (decide (s = t)); [contradiction|].
  unfold try_except, bind.
  destruct (load_translation_model X s t w) as [[tr|e] w1]; [|reflexivity].
  rewrite translate_loop_outcome. simpl.
  destruct (fst (loop_outcome X tr (str_split doc) [])); reflexivity.
Qed.

(** A translation that returns: the document is the join of one item for each
    line of the input, and the model was called on the lines that pass the
    test, in order. *)
Lemma translate_subtitles_ok (doc : pystr) (s t : string) (w w' : World)
      (out : pystr) :
  s <> t ->
  translate_subtitles X doc s t w = (Ok out, w') ->
  exists es items,
    trace w' = trace w ++ es /\
    out = str_join items /\
    Forall2 (line_outcome X (s, t)) (str_split doc) items /\
    sent_lines es = filter (fun l => should_translate X l = true) (str_split doc).
Proof.
  intros Hne. rewrite translate_subtitles_ne by exact Hne.
  destruct (load_translation_model_inv s t w) as [es [Htr [Hsent [_ [_ Hr]]]]].
  destruct (load_translation_model X s t w) as [[tr|e] w1]; [|discriminate].
  simpl in *. destruct Hr as [[= ->]|[e [=]]].
  destruct (fst (loop_outcome X (s, t) (str_split doc) [])) as [items|e] eqn:Eo;
    [|discriminate].
  intros [= <- <-].
  destruct (loop_outcome_ok X (s, t) _ _ _ Eo) as [items' [-> [HF Hs]]].
  exists (es ++ map (EvTranslate s t) (snd (loop_outcome X (s, t) (str_split doc) []))), items'.
  simpl. rewrite Htr, app_assoc, sent_lines_app, Hsent, sent_lines_translate.
  auto.
Qed.

(** Whatever its end, a translation calls the model only on lines of the
    input that pass the test. *)
Lemma translate_subtitles_sent (doc : pystr) (s t : string) (w : World) :
  s <> t ->
  exists es,
    trace (snd (translate_subtitles X doc s t w)) = trace w ++ es /\
    forall line, line ∈ sent_lines es ->
                 line ∈ str_split doc /\ should_translate X line = true.
Proof.
  intros Hne. rewrite translate_subtitles_ne by exact Hne.
  destruct (load_translation_model_inv s t w) as [es [Htr [Hsent [_ [_ Hr]]]]].
  destruct (load_translation_model X s t w) as [[tr|e] w1].
  - simpl in *. destruct Hr as [[= ->]|[e [=]]].
    exists (es ++ map (EvTranslate s t) (snd (loop_outcome X (s, t) (str_split doc) []))).
    split.
    + destruct (fst (loop_outcome X (s, t) (str_split doc) []));
        simpl; rewrite Htr, app_assoc; reflexivity.
    + intros line. rewrite sent_lines_app, Hsent, sent_lines_translate. simpl.
      apply loop_outcome_sent.
  - simpl in *. exists es. split; [exact Htr|].
    intros line. rewrite Hsent. intros H. apply elem_of_nil in H. contradiction.
Qed.

End TranslateFacts.

(** ** Properties of [translate_subtitles] *)


(** The model of [Demo.good] puts its tag before the line. *)
Lemma demo_good_text (tr : string * string) (line : pystr) :
  translated_text Demo.good tr line = Ok (lit "[pl] " ++ line).
Proof. reflexivity. Qed.


(** C2. On a pair of twice the same code [translate_subtitles] returns the
    document it was given and leaves the world as it was: no event is added
    to the trace, so no model is built and none is called, and the cache of
    models is the one it found. *)
Theorem translate_identity
        (X : External) (doc : pystr) (L : string) (w : World) :
  let run := translate_subtitles X doc L L w in
  fst run = Ok doc /\
  snd run = w /\
  trace (snd run) = trace w /\
  model_cache (snd run) = model_cache w.
Proof.
  cbv zeta. rewrite translate_subtitles_same. auto.
Qed.

(** C4. For a pair of two different codes, when the translation of one line
    that passes the test of line 54 raises (the pipeline raises, or what it
    returns has no first dict or no text), [translate_subtitles] raises the
    [RuntimeError] of the translation stage and returns no document. *)
Theorem translate_failure_is_whole
        (X : External) (doc : pystr) (s t : string) (w : World)
        (line : pystr) (e : exn) :
  s <> t ->
  line ∈ str_split doc ->
  translatable X line ->
  translated_text X (s, t) line = Raise e ->
  exists e' w',
    translate_subtitles X doc s t w = (Raise e', w') /\ TranslationError e'.
Proof.
  intros Hne Hin Ht He. rewrite translate_subtitles_ne by exact Hne.
  destruct (load_translation_model_inv X s t w) as [es [_ [_ [_ [_ Hr]]]]].
  destruct (load_translation_model X s t w) as [[tr|e0] w1]; simpl in *.
  - destruct Hr as [[= ->]|[e1 [=]]].
    apply should_translate_spec in Ht.
    destruct (loop_outcome_raise X (s, t) (str_split doc) [] line e Hin Ht He)
      as [e1 He1].
    rewrite He1. eexists _, _. split; [reflexivity|].
    split; [reflexivity|]. simpl. eauto.
  - eexists _, _. split; [reflexivity|]. split; [reflexivity|]. simpl. eauto.
Qed.

Lemma translate_failure_is_whole_witness :
  exists e' w',
    translate_subtitles Demo.line_fails Demo.srt "en" "pl" Demo.w0 = (Raise e', w') /\
    TranslationError e'.
Proof.
  apply (translate_failure_is_whole Demo.line_fails Demo.srt "en" "pl" Demo.w0
           (lit "Bye") (Exn ExternalError "out of memory")).
  - discriminate.
  - vm_compute. do 6 apply list_elem_of_further. apply list_elem_of_here.
  - apply should_translate_spec. vm_compute. reflexivity.
  - vm_compute. reflexivity.
Defined.

(** C3, as the code has it. For a pair of two different codes, when the
    translation returns, the model was called on every line of the input
    whose stripped content is not empty and not made of digits only and that
    does not hold ["-->"]; it was called on no blank line (empty or
    whitespace only), and the blank lines are in the document returned as
    they were in the input. *)
Theorem translate_sends_nonblank_text_lines
        (X : External) (doc : pystr) (s t : string) (w w' : World) (out : pystr) :
  s <> t ->
  translate_subtitles X doc s t w = (Ok out, w') ->
  exists es items,
    trace w' = trace w ++ es /\
    out = str_join items /\
    (forall line, line ∈ str_split doc -> translatable X line ->
                  line ∈ sent_lines es) /\
    (forall line, blank_line X line -> line ∉ sent_lines es) /\
    (forall i line, str_split doc !! i = Some line -> blank_line X line ->
                    items !! i = Some line).
Proof.
  intros Hne Hrun.
  destruct (translate_subtitles_ok X doc s t w w' out Hne Hrun)
    as [es [items [Htr [-> [HF Hs]]]]].
  exists es, items. split; [exact Htr|]. split; [reflexivity|].
  repeat split.
  - intros line Hin Ht. rewrite Hs, list_elem_of_filter.
    split; [apply should_translate_spec, Ht|exact Hin].
  - intros line Hb. rewrite Hs, list_elem_of_filter.
    rewrite (blank_line_not_translated X line Hb). intros [[=] _].
  - intros i line Hi Hb.
    destruct (Forall2_lookup_l _ _ _ _ _ HF Hi) as [item [Hitem Hrel]].
    unfold line_outcome in Hrel.
    rewrite (blank_line_not_translated X line Hb) in Hrel.
    subst item. exact Hitem.
Qed.

Lemma translate_sends_nonblank_text_lines_witness :
  exists es items,
    trace (snd (translate_subtitles Demo.good Demo.srt "en" "pl" Demo.w0))
    = trace Demo.w0 ++ es /\
    Demo.srt_pl = str_join items /\
    (forall line, line ∈ str_split Demo.srt -> translatable Demo.good line ->
                  line ∈ sent_lines es) /\
    (forall line, blank_line Demo.good line -> line ∉ sent_lines es) /\
    (forall i line, str_split Demo.srt !! i = Some line -> blank_line Demo.good line ->
                    items !! i = Some line).
Proof.
  apply (translate_sends_nonblank_text_lines Demo.good Demo.srt "en" "pl" Demo.w0).
  - discriminate.
  - vm_compute. reflexivity.
Defined.

(** C3, counterexample. The fourth line of [Demo.srt] is blank: it is not
    entirely digits and does not hold ["-->"]. The translation from ["en"] to
    ["pl"] returns, and the model was never called on a blank line: it was
    called on ["Hello world"] and on ["Bye"] only. *)
Lemma blank_line_not_sent_counterexample :
  "en" <> "pl" /\
  str_split Demo.srt !! 3 = Some [] /\
  ~ index_line Demo.good [] /\
  ~ timing_line [] /\
  fst (translate_subtitles Demo.good Demo.srt "en" "pl" Demo.w0) = Ok Demo.srt_pl /\
  sent_lines (trace (snd (translate_subtitles Demo.good Demo.srt "en" "pl" Demo.w0)))
  = [lit "Hello world"; lit "Bye"] /\
  [] ∉ sent_lines (trace (snd (translate_subtitles Demo.good Demo.srt "en" "pl" Demo.w0))).
Proof.
  assert (Hsent :
    sent_lines (trace (snd (translate_subtitles Demo.good Demo.srt "en" "pl" Demo.w0)))
    = [lit "Hello world"; lit "Bye"]) by (vm_compute; reflexivity).
  split; [discriminate|]. split; [vm_compute; reflexivity|].
  split; [intros [H _]; congruence|].
  split; [intros [[|c pre] [post H]]; discriminate|].
  split; [vm_compute; reflexivity|]. split; [exact Hsent|].
  rewrite Hsent. intros H.
  repeat (apply elem_of_cons in H as [H|H]; [discriminate H|]).
  apply elem_of_nil in H. exact H.
Qed.




(** ** Properties of [extract_audio_to_mp3] *)

(** C7. [extract_audio_to_mp3] either raises or returns. It raises, and what
    it raises is the [RuntimeError] of the extraction stage, exactly when
    ffmpeg exits non-zero or one of its I/O operations faults. Otherwise it
    returns the name of the new audio file, this file holds all that ffmpeg
    wrote on its exit with status zero, and the temporary input file is
    deleted when it returns. *)
Theorem extract_audio_raises_or_returns_complete
        (X : External) (video_file : bytes) (w : World) :
  let run := extract_audio_to_mp3 X video_file w in
  let video_temp_path := (tmp_counter w, ".mp4") in
  let audio_output_path := (S (tmp_counter w), ".mp3") in
  (extraction_fails X video_file /\
   exists e, fst run = Raise e /\ ExtractionError e)
  \/
  (~ extraction_fails X video_file /\
   fst run = Ok audio_output_path /\
   fs (snd run) !! audio_output_path = Some (snd (ffmpeg X video_file)) /\
   fs (snd run) !! video_temp_path = None).
Proof.
  assert (Hwrap : forall (e : exn) (w1 : World),
    exists e', (match exn_cls e with
                | CalledProcessError =>
                    raise (Exn RuntimeError ("FFmpeg error: " +:+ exn_str e))
                | _ => raise (Exn RuntimeError ("Unexpected error: " +:+ exn_str e))
                end : M path) w1 = (Raise e', w1) /\ ExtractionError e').
  { intros e w1. destruct (exn_cls e); eexists; (split; [reflexivity|]);
      (split; [reflexivity|]); simpl; eauto. }
  assert (Hop : forall op, op ∈ extraction_ops -> io_fault X op <> None ->
                           extraction_fails X video_file).
  { intros op Hin Hf. right. exists op. auto. }
  assert (Hin : Forall (fun op => op ∈ extraction_ops) extraction_ops)
    by (apply Forall_forall; auto).
  unfold extraction_ops in Hin at 2.
  repeat (apply Forall_cons in Hin as [? Hin]).
  cbv zeta. unfold extract_audio_to_mp3, try_except.
  unfold named_temporary_file, file_write, subprocess_run_ffmpeg, os_remove.
  unfold bind, io, emit, modify, ret.
  destruct (io_fault X IoCreateVideoTemp) as [e|] eqn:E1.
  { left. split; [apply (Hop IoCreateVideoTemp); [assumption|congruence]|].
    cbn. destruct (Hwrap e w) as [e' [-> He']]. eauto. }
  cbn. destruct (io_fault X IoWriteVideo) as [e|] eqn:E2.
  { left. split; [apply (Hop IoWriteVideo); [assumption|congruence]|].
    cbn. match goal with |- context [ _ ?w1 ] =>
      destruct (Hwrap e w1) as [e' [-> He']] end. eauto. }
  cbn. destruct (io_fault X IoCreateAudioTemp) as [e|] eqn:E3.
  { left. split; [apply (Hop IoCreateAudioTemp); [assumption|congruence]|].
    cbn. match goal with |- context [ _ ?w1 ] =>
      destruct (Hwrap e w1) as [e' [-> He']] end. eauto. }
  cbn. destruct (io_fault X IoSpawnFfmpeg) as [e|] eqn:E4.
  { left. split; [apply (Hop IoSpawnFfmpeg); [assumption|congruence]|].
    cbn. match goal with |- context [ _ ?w1 ] =>
      destruct (Hwrap e w1) as [e' [-> He']] end. eauto. }
  cbn.
  assert (Hpaths : (S (tmp_counter w), ".mp3") <> (tmp_counter w, ".mp4"))
    by (intros [= Hn]; lia).
  rewrite lookup_insert_ne by exact Hpaths. rewrite lookup_insert_eq.
  destruct (ffmpeg X video_file) as [returncode written] eqn:Ef.
  destruct (returncode =? 0)%Z eqn:Erc.
  2:{ left. split.
      - left. rewrite Ef. simpl. apply Z.eqb_neq, Erc.
      - cbn. eexists. split; [reflexivity|]. split; [reflexivity|]. simpl. eauto. }
  apply Z.eqb_eq in Erc. subst returncode.
  destruct (io_fault X IoRemoveVideo) as [e|] eqn:E5.
  { left. split; [apply (Hop IoRemoveVideo); [assumption|congruence]|].
    cbn. match goal with |- context [ _ ?w1 ] =>
      destruct (Hwrap e w1) as [e' [-> He']] end. eauto. }
  cbn. rewrite lookup_insert_ne by exact Hpaths.
  rewrite lookup_insert_ne by exact Hpaths. rewrite lookup_insert_eq.
  right. cbn. split; [|split; [reflexivity|split]].
  - intros [Hrc|[op [Hop' Hf]]].
    + rewrite Ef in Hrc. simpl in Hrc. congruence.
    + unfold extraction_ops in Hop'.
      repeat (apply elem_of_cons in Hop' as [->|Hop']; [congruence|]).
      apply elem_of_nil in Hop'. exact Hop'.
  - rewrite lookup_delete_ne by congruence. apply lookup_insert_eq.
  - apply lookup_delete_eq.
Qed.

(** Every component answers: [extract_audio_to_mp3] returns the name of the
    audio file, the only file left. *)
Lemma demo_extract_good :
  fst (extract_audio_to_mp3 Demo.good Demo.video Demo.w0) = Ok (1, ".mp3") /\
  fs (snd (extract_audio_to_mp3 Demo.good Demo.video Demo.w0))
  = {[ (1, ".mp3") := Demo.video ]}.
Proof. vm_compute. auto. Qed.


(** ** Properties of [generate_subtitles] *)

(** C6, as the code has it. [generate_subtitles] takes the credential as an
    argument, writes it into the module attribute [openai.api_key] before it
    opens the audio file, and the service is called with the key found
    there; whether the call returns or raises, the credential is still in
    [openai.api_key] afterwards. The files and the cache of models are
    left as they were. *)
Theorem generate_subtitles_stores_credential
        (X : External) (audio_path : path) (key : string) (w : World) :
  let w' := snd (generate_subtitles X audio_path key w) in
  openai_api_key w' = Some key /\
  fs w' = fs w /\
  model_cache w' = model_cache w /\
  exists es,
    trace w' = trace w ++ es /\
    forall p k, EvTranscribe p k ∈ es -> k = Some key.
Proof.
  cbv zeta. unfold generate_subtitles, set_openai_api_key, open_rb, audio_transcribe.
  unfold bind, io, modify, ret. cbn.
  destruct (io_fault X IoOpenAudio) as [e|]; cbn.
  { repeat split. exists []. rewrite app_nil_r. split; [reflexivity|].
    intros p k H. apply elem_of_nil in H. contradiction. }
  destruct (fs w !! audio_path) as [data|]; cbn.
  - destruct (whisper X data (Some key)); cbn; repeat split;
      (eexists; split; [reflexivity|]);
      intros p k H; apply list_elem_of_singleton in H; congruence.
  - repeat split. exists []. rewrite app_nil_r. split; [reflexivity|].
    intros p k H. apply elem_of_nil in H. contradiction.
Qed.

(** C6, counterexample. In a process whose [openai.api_key] is not set, after
    the extraction of [Demo.video], [generate_subtitles] returns the
    subtitles and leaves the credential of the request in the module
    attribute [openai.api_key]. *)
Lemma credential_kept_in_module_counterexample :
  openai_api_key (snd (extract_audio_to_mp3 Demo.good Demo.video Demo.w0)) = None /\
  fst (generate_subtitles Demo.good (1, ".mp3") "sk-demo"
         (snd (extract_audio_to_mp3 Demo.good Demo.video Demo.w0)))
  = Ok Demo.srt /\
  openai_api_key
    (snd (generate_subtitles Demo.good (1, ".mp3") "sk-demo"
            (snd (extract_audio_to_mp3 Demo.good Demo.video Demo.w0))))
  = Some "sk-demo" /\
  openai_api_key
    (snd (generate_subtitles Demo.good (1, ".mp3") "sk-demo"
            (snd (extract_audio_to_mp3 Demo.good Demo.video Demo.w0))))
  <> openai_api_key (snd (extract_audio_to_mp3 Demo.good Demo.video Demo.w0)).
Proof. vm_compute. repeat split; discriminate. Qed.

(** ** Properties of a run of the script *)

(** The files [generate_subtitles] finds are the files it leaves. *)
Lemma generate_subtitles_fs
      (X : External) (audio_path : path) (key : string) (w : World) :
  fs (snd (generate_subtitles X audio_path key w)) = fs w.
Proof.
  unfold generate_subtitles, set_openai_api_key, open_rb, audio_transcribe.
  unfold bind, io, modify, ret. cbn.
  destruct (io_fault X IoOpenAudio) as [e|]; cbn; [reflexivity|].
  destruct (fs w !! audio_path) as [data|]; cbn; [|reflexivity].
  destruct (whisper X data (Some key)); reflexivity.
Qed.

(** The files [translate_subtitles] finds are the files it leaves. *)
Lemma translate_subtitles_fs
      (X : External) (doc : pystr) (s t : string) (w : World) :
  fs (snd (translate_subtitles X doc s t w)) = fs w.
Proof.
  destruct (decide (s = t)) as [->|Hne].
  - rewrite translate_subtitles_same. reflexivity.
  - rewrite translate_subtitles_ne by exact Hne.
    destruct (load_translation_model_inv X s t w) as [es [_ [_ [Hfs _]]]].
    destruct (load_translation_model X s t w) as [[tr|e] w1]; simpl in *.
    + destruct (fst (loop_outcome X tr (str_split doc) [])); exact Hfs.
    + exact Hfs.
Qed.

(** When the extraction returned an audio file and a later stage raises,
    the run block ends on [st.error] and the audio file is still there. *)
Lemma run_block_failure_keeps_audio
      (X : External) (file : bytes) (key s t : string) (w w1 : World) (p : path) :
  extract_audio_to_mp3 X file (add_event (EvProgress 10) (add_event (EvProgress 0) w))
  = (Ok p, w1) ->
  (let after := generate_subtitles X p key (add_event (EvProgress 30) w1) in
   (exists e, fst after = Raise e) \/
   (exists subtitles e,
       fst after = Ok subtitles /\
       fst (translate_subtitles X subtitles s t (add_event (EvProgress 60) (snd after)))
       = Raise e)) ->
  fs (snd (run_block X file key s t w)) !! p = fs w1 !! p.
Proof.
  intros Hex Hlater. cbv zeta in Hlater.
  unfold run_block, try_except, bind, emit, modify.
  cbn -[extract_audio_to_mp3 generate_subtitles translate_subtitles].
  unfold emit, modify in Hex. rewrite Hex.
  cbn -[extract_audio_to_mp3 generate_subtitles translate_subtitles].
  pose proof (generate_subtitles_fs X p key (add_event (EvProgress 30) w1)) as Hg.
  destruct (generate_subtitles X p key (add_event (EvProgress 30) w1))
    as [[subtitles|e] w2]; simpl in *.
  - destruct Hlater as [[e [=]]|[subtitles' [e [[= <-] Htr]]]].
    pose proof (translate_subtitles_fs X subtitles s t (add_event (EvProgress 60) w2))
      as Ht.
    destruct (translate_subtitles X subtitles s t (add_event (EvProgress 60) w2))
      as [[out|e'] w3]; simpl in *; [discriminate|].
    rewrite Ht, Hg. reflexivity.
  - rewrite Hg. reflexivity.
Qed.

(** C5, the code at the failing inputs. The user of [Demo.request] uploads a
    video and asks for subtitles. When the service refuses the key, and when
    the model raises on a line, the run ends on [st.error] and the audio file
    that the extraction made is still on the filesystem; when ffmpeg exits
    with status 1 the temporary video file and the audio file are both still
    there. Only the run in which every stage succeeds leaves no file. *)
Theorem failed_run_leaves_temporary_files :
  (last (trace (snd (script Demo.key_refused Demo.request Demo.w0)))
   = Some (EvError "An error occurred: Incorrect API key provided") /\
   fs (snd (script Demo.key_refused Demo.request Demo.w0))
   = {[ (1, ".mp3") := Demo.video ]}) /\
  (last (trace (snd (script Demo.line_fails Demo.request Demo.w0)))
   = Some (EvError "An error occurred: Error during translation: out of memory") /\
   fs (snd (script Demo.line_fails Demo.request Demo.w0))
   = {[ (1, ".mp3") := Demo.video ]}) /\
  (last (trace (snd (script Demo.ffmpeg_fails Demo.request Demo.w0)))
   = Some (EvError "An error occurred: FFmpeg error: returned non-zero exit status") /\
   fs (snd (script Demo.ffmpeg_fails Demo.request Demo.w0))
   = <[ (0, ".mp4") := Demo.video ]> {[ (1, ".mp3") := [Byte.xff] ]}) /\
  (last (trace (snd (script Demo.good Demo.request Demo.w0))) = Some EvToast /\
   srt_content (snd (script Demo.good Demo.request Demo.w0)) = Demo.srt_pl /\
   fs (snd (script Demo.good Demo.request Demo.w0)) = ∅).
Proof. vm_compute. repeat split. Qed.


(** The confirmation of the key returns, and changes nothing but the flag of
    the session and the messages of the sidebar. *)
Lemma confirm_key_inv (req : Request) (w : World) :
  fst (confirm_key req w) = Ok tt /\
  exists es,
    trace (snd (confirm_key req w)) = trace w ++ es /\
    Forall (fun e => pipeline_event e = false) es /\
    fs (snd (confirm_key req w)) = fs w /\
    tmp_counter (snd (confirm_key req w)) = tmp_counter w /\
    openai_api_key (snd (confirm_key req w)) = openai_api_key w /\
    model_cache (snd (confirm_key req w)) = model_cache w /\
    srt_content (snd (confirm_key req w)) = srt_content w.
Proof.
  unfold confirm_key. destruct (confirm_api_key req).
  - destruct (api_key req); cbn; (split; [reflexivity|]);
      (eexists; split; [reflexivity|]); (split; [|auto 6]);
      repeat constructor.
  - cbn. split; [reflexivity|]. exists []. rewrite app_nil_r.
    split; [reflexivity|]. split; [constructor|auto 6].
Qed.

(** ** More on [load_translation_model] and [translate_subtitles] *)

Section MoreTranslateFacts.

Variable X : External.

Lemma load_translation_model_cached (s t : string) (w : World) :
  (s, t) ∈ model_cache w ->
  load_translation_model X s t w = (Ok (s, t), w).
Proof.
  intros Hin. unfold load_translation_model.
  destruct (decide ((s, t) ∈ model_cache w)); [reflexivity|contradiction].
Qed.

Lemma load_translation_model_built (s t : string) (w : World) :
  (s, t) ∉ model_cache w -> pipeline_load X s t = None ->
  load_translation_model X s t w
  = (Ok (s, t),
     set_model_cache ({[ (s, t) ]} ∪ model_cache w) (add_event (EvLoadModel s t) w)).
Proof.
  intros Hin Hl. unfold load_translation_model.
  destruct (decide ((s, t) ∈ model_cache w)); [contradiction|].
  rewrite Hl. reflexivity.
Qed.

Lemma load_translation_model_failed (s t : string) (w : World) (e : exn) :
  (s, t) ∉ model_cache w -> pipeline_load X s t = Some e ->
  load_translation_model X s t w = (Raise e, add_event (EvLoadModel s t) w).
Proof.
  intros Hin Hl. unfold load_translation_model.
  destruct (decide ((s, t) ∈ model_cache w)); [contradiction|].
  rewrite Hl. reflexivity.
Qed.

(** When the model can be had, from the cache or by building it, the load
    returns the handle of the pair, adds no call of a model, and the pair is
    in the cache afterwards. *)
Lemma load_translation_model_ok (s t : string) (w : World) :
  pipeline_load X s t = None \/ (s, t) ∈ model_cache w ->
  exists w1 es,
    load_translation_model X s t w = (Ok (s, t), w1) /\
    trace w1 = trace w ++ es /\ sent_lines es = [] /\
    (s, t) ∈ model_cache w1.
Proof.
  intros Hl. destruct (decide ((s, t) ∈ model_cache w)) as [Hin|Hin].
  - exists w, []. rewrite load_translation_model_cached by exact Hin.
    rewrite app_nil_r. auto.
  - destruct Hl as [Hl|Hl]; [|contradiction].
    eexists _, [EvLoadModel s t].
    rewrite load_translation_model_built by assumption.
    split; [reflexivity|]. split; [reflexivity|]. split; [reflexivity|].
    simpl. set_solver.
Qed.

(** A loop over lines none of which passes the test appends the lines and
    calls no model. *)
Lemma loop_outcome_none (tr : string * string) (lines acc : list pystr) :
  Forall (fun l => should_translate X l = false) lines ->
  loop_outcome X tr lines acc = (Ok (acc ++ lines), []).
Proof.
  intros H. revert acc. induction H as [|l lines Hl _ IH]; intros acc; simpl.
  - rewrite app_nil_r. reflexivity.
  - rewrite Hl, IH, <- app_assoc. reflexivity.
Qed.

(** A loop stops at the first line whose translation raises. *)
Lemma loop_outcome_first_failure (tr : string * string)
      (lines acc pre post : list pystr) (line : pystr) (e : exn) :
  filter (fun l => should_translate X l = true) lines = pre ++ line :: post ->
  Forall (fun l => exists text, translated_text X tr l = Ok text) pre ->
  translated_text X tr line = Raise e ->
  loop_outcome X tr lines acc = (Raise e, pre ++ [line]).
Proof.
  revert acc pre. induction lines as [|l lines IH]; intros acc pre Hf Hpre He.
  - destruct pre; discriminate.
  - simpl. rewrite filter_cons in Hf.
    destruct (should_translate X l) eqn:Et.
    + destruct (decide (true = true)); [|congruence].
      destruct pre as [|p pre]; simpl in Hf; injection Hf as -> Hf.
      * rewrite He. reflexivity.
      * inversion Hpre as [|? ? [text Htext] Hpre']; subst.
        rewrite Htext. rewrite (IH (acc ++ [text]) pre Hf Hpre' He). reflexivity.
    + destruct (decide (false = true)); [congruence|].
      apply IH; assumption.
Qed.

Lemma loaded_models_translate (s t : string) (lines : list pystr) :
  loaded_models (map (EvTranslate s t) lines) = [].
Proof. induction lines; [reflexivity|assumption]. Qed.

End MoreTranslateFacts.

(** X1. When the model of a pair of two different codes is not in the cache
    and cannot be built, [translate_subtitles] raises the [RuntimeError] of the
    translation stage with the text of the exception of the build, after the
    one attempt to build: no line is sent to a model and nothing is put in
    the cache, so the next call tries to build again. *)
Theorem translate_model_not_built
        (X : External) (doc : pystr) (s t : string) (w : World) (e : exn) :
  s <> t ->
  (s, t) ∉ model_cache w ->
  pipeline_load X s t = Some e ->
  translate_subtitles X doc s t w
  = (Raise (Exn RuntimeError ("Error during translation: " +:+ exn_str e)),
     add_event (EvLoadModel s t) w).
Proof.
  intros Hne Hin Hl. rewrite translate_subtitles_ne by exact Hne.
  rewrite (load_translation_model_failed X s t w e Hin Hl). reflexivity.
Qed.

Lemma translate_model_not_built_witness :
  translate_subtitles Faults.no_model Demo.srt "en" "pl" Demo.w0
  = (Raise (Exn RuntimeError "Error during translation: model not found"),
     add_event (EvLoadModel "en" "pl") Demo.w0).
Proof.
  apply (translate_model_not_built Faults.no_model Demo.srt "en" "pl" Demo.w0
           (Exn ExternalError "model not found")).
  - discriminate.
  - simpl. apply not_elem_of_empty.
  - reflexivity.
Defined.

(** X2. For a pair of two different codes whose model can be had, a document
    none of whose lines passes the test of line 54 (indices, timings, blank
    lines only) comes back byte for byte: no model is called, though the
    model of the pair is loaded and is in the cache afterwards. *)
Theorem translate_nothing_to_translate
        (X : External) (doc : pystr) (s t : string) (w : World) :
  s <> t ->
  pipeline_load X s t = None \/ (s, t) ∈ model_cache w ->
  Forall (fun l => ~ translatable X l) (str_split doc) ->
  let run := translate_subtitles X doc s t w in
  fst run = Ok doc /\
  sent_lines (trace (snd run)) = sent_lines (trace w) /\
  (s, t) ∈ model_cache (snd run).
Proof.
  intros Hne Hl Hnone. cbv zeta. rewrite translate_subtitles_ne by exact Hne.
  destruct (load_translation_model_ok X s t w Hl) as [w1 [es [-> [Htr [Hs Hc]]]]].
  rewrite loop_outcome_none.
  - simpl. rewrite str_join_split, app_nil_r, Htr, sent_lines_app, Hs, app_nil_r.
    auto.
  - eapply Forall_impl; [exact Hnone|]. intros l Hnt. simpl in Hnt.
    apply not_true_iff_false. intros Ht. apply Hnt, should_translate_spec, Ht.
Qed.

Lemma translate_nothing_to_translate_witness :
  let run := translate_subtitles Demo.good Faults.structure_only "en" "pl" Demo.w0 in
  fst run = Ok Faults.structure_only /\
  sent_lines (trace (snd run)) = sent_lines (trace Demo.w0) /\
  ("en", "pl") ∈ model_cache (snd run).
Proof.
  apply (translate_nothing_to_translate Demo.good Faults.structure_only "en" "pl" Demo.w0).
  - discriminate.
  - left. reflexivity.
  - apply Forall_forall. intros l Hin Ht.
    apply should_translate_spec in Ht. revert Ht.
    vm_compute in Hin.
    repeat (apply elem_of_cons in Hin as [->|Hin]; [vm_compute; discriminate|]).
    apply elem_of_nil in Hin. contradiction.
Defined.

(** X3. For a pair of two different codes whose model can be had, the lines
    that pass the test are sent in order until the first whose translation
    raises: [translate_subtitles] raises with the text of that exception, the
    lines before it and that line were sent, the lines after it were not. *)
Theorem translate_stops_at_first_failure
        (X : External) (doc : pystr) (s t : string) (w : World)
        (pre post : list pystr) (line : pystr) (e : exn) :
  s <> t ->
  pipeline_load X s t = None \/ (s, t) ∈ model_cache w ->
  filter (fun l => should_translate X l = true) (str_split doc) = pre ++ line :: post ->
  Forall (fun l => exists text, translated_text X (s, t) l = Ok text) pre ->
  translated_text X (s, t) line = Raise e ->
  let run := translate_subtitles X doc s t w in
  fst run = Raise (Exn RuntimeError ("Error during translation: " +:+ exn_str e)) /\
  exists es, trace (snd run) = trace w ++ es /\ sent_lines es = pre ++ [line].
Proof.
  intros Hne Hl Hf Hpre He. cbv zeta. rewrite translate_subtitles_ne by exact Hne.
  destruct (load_translation_model_ok X s t w Hl) as [w1 [es [-> [Htr [Hs Hc]]]]].
  rewrite (loop_outcome_first_failure X (s, t) _ [] pre post line e Hf Hpre He).
  simpl. split; [reflexivity|].
  exists (es ++ map (EvTranslate s t) (pre ++ [line])).
  rewrite Htr, app_assoc, sent_lines_app, Hs, sent_lines_translate. auto.
Qed.

Lemma translate_stops_at_first_failure_witness :
  let run := translate_subtitles Demo.line_fails Demo.srt "en" "pl" Demo.w0 in
  fst run = Raise (Exn RuntimeError "Error during translation: out of memory") /\
  exists es, trace (snd run) = trace Demo.w0 ++ es /\
             sent_lines es = [lit "Hello world"] ++ [lit "Bye"].
Proof.
  apply (translate_stops_at_first_failure Demo.line_fails Demo.srt "en" "pl" Demo.w0
           [lit "Hello world"] [] (lit "Bye") (Exn ExternalError "out of memory")).
  - discriminate.
  - left. reflexivity.
  - vm_compute. reflexivity.
  - repeat constructor. eexists. vm_compute. reflexivity.
  - vm_compute. reflexivity.
Defined.

(** X4. Once [translate_subtitles] got the model of a pair, any later
    translation with the same pair builds no model: the pair is in the cache
    even when the first translation raised on a line. *)
Theorem translate_builds_model_once
        (X : External) (doc doc2 : pystr) (s t : string) (w : World) :
  s <> t ->
  pipeline_load X s t = None \/ (s, t) ∈ model_cache w ->
  let w1 := snd (translate_subtitles X doc s t w) in
  (s, t) ∈ model_cache w1 /\
  exists es,
    trace (snd (translate_subtitles X doc2 s t w1)) = trace w1 ++ es /\
    loaded_models es = [].
Proof.
  intros Hne Hl. cbv zeta.
  assert (Hc : (s, t) ∈ model_cache (snd (translate_subtitles X doc s t w))).
  { rewrite translate_subtitles_ne by exact Hne.
    destruct (load_translation_model_ok X s t w Hl) as [w1 [es [-> [_ [_ Hc]]]]].
    simpl. destruct (fst (loop_outcome X (s, t) (str_split doc) [])); exact Hc. }
  split; [exact Hc|].
  rewrite (translate_subtitles_ne X doc2) by exact Hne.
  rewrite load_translation_model_cached by exact Hc. simpl.
  exists (map (EvTranslate s t) (snd (loop_outcome X (s, t) (str_split doc2) []))).
  split; [|apply loaded_models_translate].
  destruct (fst (loop_outcome X (s, t) (str_split doc2) [])); reflexivity.
Qed.

Lemma translate_builds_model_once_witness :
  let w1 := snd (translate_subtitles Demo.good Demo.srt "en" "pl" Demo.w0) in
  ("en", "pl") ∈ model_cache w1 /\
  exists es,
    trace (snd (translate_subtitles Demo.good (lit "Again") "en" "pl" w1)) = trace w1 ++ es /\
    loaded_models es = [].
Proof.
  apply (translate_builds_model_once Demo.good Demo.srt (lit "Again") "en" "pl" Demo.w0).
  - discriminate.
  - left. reflexivity.
Defined.

(** X5. [translate_subtitles] changes nothing but the trace and the cache of
    models: the files, the counter of temporary names, [openai.api_key] and
    the session (the flag of the key, the subtitles) are what they were, and
    the cache keeps its pairs and gains at most the pair of the call. *)
Theorem translate_subtitles_frame
        (X : External) (doc : pystr) (s t : string) (w : World) :
  let w' := snd (translate_subtitles X doc s t w) in
  fs w' = fs w /\
  tmp_counter w' = tmp_counter w /\
  openai_api_key w' = openai_api_key w /\
  api_key_confirmed w' = api_key_confirmed w /\
  srt_content w' = srt_content w /\
  model_cache w ⊆ model_cache w' /\
  model_cache w' ⊆ {[ (s, t) ]} ∪ model_cache w.
Proof.
  cbv zeta. destruct (decide (s = t)) as [->|Hne].
  - rewrite translate_subtitles_same. simpl. repeat split; set_solver.
  - rewrite translate_subtitles_ne by exact Hne.
    unfold load_translation_model.
    destruct (decide ((s, t) ∈ model_cache w)).
    + simpl. destruct (fst (loop_outcome X (s, t) (str_split doc) []));
        simpl; repeat split; set_solver.
    + destruct (pipeline_load X s t); simpl.
      * repeat split; set_solver.
      * destruct (fst (loop_outcome X (s, t) (str_split doc) []));
          simpl; repeat split; set_solver.
Qed.

(** ** More on [extract_audio_to_mp3] *)

Ltac unfold_extract :=
  unfold extract_audio_to_mp3, try_except, named_temporary_file, file_write,
    subprocess_run_ffmpeg, os_remove, bind, io, emit, modify, ret, raise.

(** X6. When an I/O operation faults before ffmpeg runs (the temporary files
    cannot be made or written, ffmpeg cannot be started), the exception of
    the first fault is what [extract_audio_to_mp3] reports: as
    ["FFmpeg error: ..."] only if its class is [CalledProcessError], as
    ["Unexpected error: ..."] otherwise; ffmpeg is not run. *)
Theorem extract_fault_before_ffmpeg
        (X : External) (video_file : bytes) (w : World) (e : exn) :
  first_fault X ops_before_ffmpeg = Some e ->
  let run := extract_audio_to_mp3 X video_file w in
  fst run = Raise (extraction_error e) /\
  trace (snd run) = trace w.
Proof.
  intros Hf. cbv zeta. unfold first_fault, ops_before_ffmpeg in Hf.
  unfold_extract. unfold extraction_error. simpl in Hf.
  destruct (io_fault X IoCreateVideoTemp) as [e1|]; simpl in Hf.
  { injection Hf as ->. cbn. destruct (exn_cls e); auto. }
  destruct (io_fault X IoWriteVideo) as [e2|]; simpl in Hf.
  { injection Hf as ->. cbn. destruct (exn_cls e); auto. }
  destruct (io_fault X IoCreateAudioTemp) as [e3|]; simpl in Hf.
  { injection Hf as ->. cbn. destruct (exn_cls e); auto. }
  destruct (io_fault X IoSpawnFfmpeg) as [e4|]; simpl in Hf; [|discriminate].
  injection Hf as ->. cbn. destruct (exn_cls e); auto.
Qed.

Lemma extract_fault_before_ffmpeg_witness :
  let run := extract_audio_to_mp3 Faults.no_ffmpeg Demo.video Demo.w0 in
  fst run
  = Raise (extraction_error (Exn OSError "No such file or directory: 'ffmpeg'")) /\
  trace (snd run) = trace Demo.w0.
Proof.
  apply (extract_fault_before_ffmpeg Faults.no_ffmpeg Demo.video Demo.w0).
  reflexivity.
Defined.

(** X7. When ffmpeg runs and exits non-zero, [extract_audio_to_mp3] raises a
    [RuntimeError] whose text starts with ["FFmpeg error: "], and deletes
    nothing: the temporary video file still holds the upload and the audio
    file holds whatever ffmpeg left in it. *)
Theorem extract_ffmpeg_failure_leaves_files
        (X : External) (video_file : bytes) (w : World) :
  first_fault X ops_before_ffmpeg = None ->
  fst (ffmpeg X video_file) <> 0%Z ->
  let run := extract_audio_to_mp3 X video_file w in
  (exists cause,
      fst run = Raise (Exn RuntimeError ("FFmpeg error: " +:+ cause))) /\
  fs (snd run) !! (tmp_counter w, ".mp4") = Some video_file /\
  fs (snd run) !! (S (tmp_counter w), ".mp3") = Some (snd (ffmpeg X video_file)) /\
  ffmpeg_runs (trace (snd run))
  = ffmpeg_runs (trace w) ++ [((tmp_counter w, ".mp4"), (S (tmp_counter w), ".mp3"))].
Proof.
  intros Hf Hrc. cbv zeta. unfold first_fault, ops_before_ffmpeg in Hf.
  unfold_extract. simpl in Hf.
  destruct (io_fault X IoCreateVideoTemp) as [e1|]; simpl in Hf; [discriminate|].
  destruct (io_fault X IoWriteVideo) as [e2|]; simpl in Hf; [discriminate|].
  destruct (io_fault X IoCreateAudioTemp) as [e3|]; simpl in Hf; [discriminate|].
  destruct (io_fault X IoSpawnFfmpeg) as [e4|]; simpl in Hf; [discriminate|].
  cbn.
  assert (Hpaths : (S (tmp_counter w), ".mp3") <> (tmp_counter w, ".mp4"))
    by (intros [= Hn]; lia).
  rewrite lookup_insert_ne by exact Hpaths. rewrite lookup_insert_eq.
  destruct (ffmpeg X video_file) as [returncode written]. simpl in Hrc.
  apply Z.eqb_neq in Hrc. rewrite Hrc. cbn.
  split; [eauto|]. split; [|split].
  - rewrite lookup_insert_ne by exact Hpaths.
    rewrite lookup_insert_ne by exact Hpaths. apply lookup_insert_eq.
  - apply lookup_insert_eq.
  - unfold ffmpeg_runs. rewrite omap_app. reflexivity.
Qed.

Lemma extract_ffmpeg_failure_leaves_files_witness :
  let run := extract_audio_to_mp3 Demo.ffmpeg_fails Demo.video Demo.w0 in
  (exists cause,
      fst run = Raise (Exn RuntimeError ("FFmpeg error: " +:+ cause))) /\
  fs (snd run) !! (tmp_counter Demo.w0, ".mp4") = Some Demo.video /\
  fs (snd run) !! (S (tmp_counter Demo.w0), ".mp3")
  = Some (snd (ffmpeg Demo.ffmpeg_fails Demo.video)) /\
  ffmpeg_runs (trace (snd run))
  = ffmpeg_runs (trace Demo.w0)
    ++ [((tmp_counter Demo.w0, ".mp4"), (S (tmp_counter Demo.w0), ".mp3"))].
Proof.
  apply (extract_ffmpeg_failure_leaves_files Demo.ffmpeg_fails Demo.video Demo.w0).
  - reflexivity.
  - vm_compute. discriminate.
Defined.

(** X8. When ffmpeg exits with status zero and the removal of the temporary
    video file faults, [extract_audio_to_mp3] raises although the audio is
    complete: the name of the audio file is not returned, and both files are
    still there. *)
Theorem extract_remove_fault_loses_audio
        (X : External) (video_file : bytes) (w : World) (e : exn) :
  first_fault X ops_before_ffmpeg = None ->
  fst (ffmpeg X video_file) = 0%Z ->
  io_fault X IoRemoveVideo = Some e ->
  let run := extract_audio_to_mp3 X video_file w in
  fst run = Raise (extraction_error e) /\
  fs (snd run) !! (tmp_counter w, ".mp4") = Some video_file /\
  fs (snd run) !! (S (tmp_counter w), ".mp3") = Some (snd (ffmpeg X video_file)).
Proof.
  intros Hf Hrc Hrm. cbv zeta. unfold first_fault, ops_before_ffmpeg in Hf.
  unfold_extract. unfold extraction_error. simpl in Hf.
  destruct (io_fault X IoCreateVideoTemp) as [e1|]; simpl in Hf; [discriminate|].
  destruct (io_fault X IoWriteVideo) as [e2|]; simpl in Hf; [discriminate|].
  destruct (io_fault X IoCreateAudioTemp) as [e3|]; simpl in Hf; [discriminate|].
  destruct (io_fault X IoSpawnFfmpeg) as [e4|]; simpl in Hf; [discriminate|].
  cbn.
  assert (Hpaths : (S (tmp_counter w), ".mp3") <> (tmp_counter w, ".mp4"))
    by (intros [= Hn]; lia).
  rewrite lookup_insert_ne by exact Hpaths. rewrite lookup_insert_eq.
  destruct (ffmpeg X video_file) as [returncode written]. simpl in Hrc.
  subst returncode. rewrite Hrm. cbn.
  split; [destruct (exn_cls e); reflexivity|].
  destruct (exn_cls e); cbn; (split;
    [rewrite !lookup_insert_ne by exact Hpaths; apply lookup_insert_eq
    |apply lookup_insert_eq]).
Qed.

Lemma extract_remove_fault_loses_audio_witness :
  let run := extract_audio_to_mp3 Faults.remove_fails Demo.video Demo.w0 in
  fst run = Raise (extraction_error (Exn OSError "Permission denied")) /\
  fs (snd run) !! (tmp_counter Demo.w0, ".mp4") = Some Demo.video /\
  fs (snd run) !! (S (tmp_counter Demo.w0), ".mp3")
  = Some (snd (ffmpeg Faults.remove_fails Demo.video)).
Proof.
  apply (extract_remove_fault_loses_audio Faults.remove_fails Demo.video Demo.w0).
  - reflexivity.
  - reflexivity.
  - reflexivity.
Defined.

(** What [extract_audio_to_mp3] leaves alone, and the events it adds. *)
Lemma extract_audio_frame (X : External) (video_file : bytes) (w : World) :
  let w' := snd (extract_audio_to_mp3 X video_file w) in
  openai_api_key w' = openai_api_key w /\
  model_cache w' = model_cache w /\
  api_key_confirmed w' = api_key_confirmed w /\
  srt_content w' = srt_content w /\
  (tmp_counter w <= tmp_counter w' <= tmp_counter w + 2) /\
  (forall p, p <> (tmp_counter w, ".mp4") -> p <> (S (tmp_counter w), ".mp3") ->
             fs w' !! p = fs w !! p) /\
  (trace w' = trace w \/
   trace w' = trace w ++ [EvFfmpeg (tmp_counter w, ".mp4") (S (tmp_counter w), ".mp3")]).
Proof.
  cbv zeta. unfold_extract.
  assert (Hpaths : (S (tmp_counter w), ".mp3") <> (tmp_counter w, ".mp4"))
    by (intros [= Hn]; lia).
  destruct (io_fault X IoCreateVideoTemp) as [e1|]; cbn.
  { destruct (exn_cls e1); cbn; repeat split; auto; lia. }
  destruct (io_fault X IoWriteVideo) as [e2|]; cbn.
  { destruct (exn_cls e2); cbn; (repeat split; auto; try lia);
      intros p H1 H2; rewrite lookup_insert_ne by congruence; reflexivity. }
  destruct (io_fault X IoCreateAudioTemp) as [e3|]; cbn.
  { destruct (exn_cls e3); cbn; (repeat split; auto; try lia);
      intros p H1 H2; rewrite !lookup_insert_ne by congruence; reflexivity. }
  destruct (io_fault X IoSpawnFfmpeg) as [e4|]; cbn.
  { destruct (exn_cls e4); cbn; (repeat split; auto; try lia);
      intros p H1 H2; rewrite !lookup_insert_ne by congruence; reflexivity. }
  rewrite lookup_insert_ne by exact Hpaths. rewrite lookup_insert_eq.
  destruct (ffmpeg X video_file) as [returncode written].
  destruct (returncode =? 0)%Z; cbn.
  2:{ (repeat split; auto; try lia);
      intros p H1 H2; rewrite !lookup_insert_ne by congruence; reflexivity. }
  destruct (io_fault X IoRemoveVideo) as [e5|]; cbn.
  { destruct (exn_cls e5); cbn; (repeat split; auto; try lia);
      intros p H1 H2; rewrite !lookup_insert_ne by congruence; reflexivity. }
  rewrite !lookup_insert_ne by exact Hpaths. rewrite lookup_insert_eq. cbn.
  (repeat split; auto; try lia).
  intros p H1 H2. rewrite lookup_delete_ne by congruence.
  rewrite !lookup_insert_ne by congruence. reflexivity.
Qed.

(** X9. [extract_audio_to_mp3] touches no file but its two temporary files,
    makes at most two temporary names, and leaves [openai.api_key], the cache
    of models and the session as they were. *)
Theorem extract_audio_touches_only_its_files
        (X : External) (video_file : bytes) (w : World) :
  let w' := snd (extract_audio_to_mp3 X video_file w) in
  (forall p, p <> (tmp_counter w, ".mp4") -> p <> (S (tmp_counter w), ".mp3") ->
             fs w' !! p = fs w !! p) /\
  (tmp_counter w <= tmp_counter w' <= tmp_counter w + 2) /\
  openai_api_key w' = openai_api_key w /\
  model_cache w' = model_cache w /\
  api_key_confirmed w' = api_key_confirmed w /\
  srt_content w' = srt_content w.
Proof.
  pose proof (extract_audio_frame X video_file w) as H. cbv zeta in *.
  tauto.
Qed.

(** ** More on [generate_subtitles] *)

(** [generate_subtitles] step by step. *)
Lemma generate_subtitles_cases
      (X : External) (audio_path : path) (key : string) (w : World) :
  generate_subtitles X audio_path key w =
  match io_fault X IoOpenAudio with
  | Some e => (Raise e, set_api_key (Some key) w)
  | None =>
      match fs w !! audio_path with
      | None => (Raise (Exn OSError "No such file or directory"),
                 set_api_key (Some key) w)
      | Some data =>
          (whisper X data (Some key),
           add_event (EvTranscribe audio_path (Some key)) (set_api_key (Some key) w))
      end
  end.
Proof.
  unfold generate_subtitles, set_openai_api_key, open_rb, audio_transcribe.
  unfold bind, io, modify, ret, raise. cbn.
  destruct (io_fault X IoOpenAudio) as [e|]; cbn; [reflexivity|].
  destruct (fs w !! audio_path) as [data|]; cbn; [|reflexivity].
  destruct (whisper X data (Some key)); reflexivity.
Qed.

(** X10. When the audio file cannot be opened, because the operation faults
    or because no file has that name, [generate_subtitles] raises that
    exception as it is and never calls the speech-to-text service; the
    credential is in [openai.api_key] all the same. *)
Theorem generate_subtitles_unreadable_audio
        (X : External) (audio_path : path) (key : string) (w : World) :
  io_fault X IoOpenAudio <> None \/ fs w !! audio_path = None ->
  let run := generate_subtitles X audio_path key w in
  (exists e, fst run = Raise e /\
             (io_fault X IoOpenAudio = Some e \/ exn_cls e = OSError)) /\
  trace (snd run) = trace w /\
  openai_api_key (snd run) = Some key.
Proof.
  intros H. cbv zeta. rewrite generate_subtitles_cases.
  destruct (io_fault X IoOpenAudio) as [e|]; simpl; [eauto 6|].
  destruct H as [H|H]; [congruence|]. rewrite H. simpl. eauto 6.
Qed.

Lemma generate_subtitles_unreadable_audio_witness :
  let run := generate_subtitles Demo.good (1, ".mp3") "sk-demo" Demo.w0 in
  (exists e, fst run = Raise e /\
             (io_fault Demo.good IoOpenAudio = Some e \/ exn_cls e = OSError)) /\
  trace (snd run) = trace Demo.w0 /\
  openai_api_key (snd run) = Some "sk-demo".
Proof.
  apply (generate_subtitles_unreadable_audio Demo.good (1, ".mp3") "sk-demo" Demo.w0).
  right. reflexivity.
Defined.

(** X11. When the audio file can be read, [generate_subtitles] calls the
    service once, on the bytes of that file and with the key it was given,
    and its outcome is the outcome of the service: the text returned, or the
    exception raised, not wrapped in a [RuntimeError]. *)
Theorem generate_subtitles_is_the_service
        (X : External) (audio_path : path) (key : string) (w : World)
        (data : bytes) :
  io_fault X IoOpenAudio = None ->
  fs w !! audio_path = Some data ->
  let run := generate_subtitles X audio_path key w in
  fst run = whisper X data (Some key) /\
  trace (snd run) = trace w ++ [EvTranscribe audio_path (Some key)].
Proof.
  intros Hio Hfs. cbv zeta. rewrite generate_subtitles_cases, Hio, Hfs. auto.
Qed.

Lemma generate_subtitles_is_the_service_witness :
  let run := generate_subtitles Demo.key_refused (1, ".mp3") "sk-demo" Faults.w_audio in
  fst run = whisper Demo.key_refused Demo.video (Some "sk-demo") /\
  trace (snd run) = trace Faults.w_audio ++ [EvTranscribe (1, ".mp3") (Some "sk-demo")].
Proof.
  apply (generate_subtitles_is_the_service Demo.key_refused (1, ".mp3") "sk-demo"
           Faults.w_audio Demo.video).
  - reflexivity.
  - vm_compute. reflexivity.
Defined.

(** What [generate_subtitles] leaves alone, and the events it adds. *)
Lemma generate_subtitles_frame
      (X : External) (audio_path : path) (key : string) (w : World) :
  let w' := snd (generate_subtitles X audio_path key w) in
  fs w' = fs w /\
  tmp_counter w' = tmp_counter w /\
  model_cache w' = model_cache w /\
  api_key_confirmed w' = api_key_confirmed w /\
  srt_content w' = srt_content w /\
  (trace w' = trace w \/
   trace w' = trace w ++ [EvTranscribe audio_path (Some key)]).
Proof.
  cbv zeta. rewrite generate_subtitles_cases.
  destruct (io_fault X IoOpenAudio); [simpl; auto 10|].
  destruct (fs w !! audio_path); simpl; auto 10.
Qed.

(** What [translate_subtitles] leaves alone, and the events it adds. *)
Lemma translate_subtitles_fields
      (X : External) (doc : pystr) (s t : string) (w : World) :
  let w' := snd (translate_subtitles X doc s t w) in
  fs w' = fs w /\
  tmp_counter w' = tmp_counter w /\
  openai_api_key w' = openai_api_key w /\
  api_key_confirmed w' = api_key_confirmed w /\
  srt_content w' = srt_content w /\
  exists es, trace w' = trace w ++ es /\
             progress_values es = [] /\ ffmpeg_runs es = [] /\
             transcribe_calls es = [] /\
             (loaded_models es = [] \/ loaded_models es = [(s, t)]).
Proof.
  cbv zeta. destruct (decide (s = t)) as [->|Hne].
  - rewrite translate_subtitles_same. simpl. repeat split.
    exists []. rewrite app_nil_r. auto 8.
  - rewrite translate_subtitles_ne by exact Hne.
    assert (Hmap : forall lines : list pystr,
      progress_values (map (EvTranslate s t) lines) = [] /\
      ffmpeg_runs (map (EvTranslate s t) lines) = [] /\
      transcribe_calls (map (EvTranslate s t) lines) = [] /\
      loaded_models (map (EvTranslate s t) lines) = []).
    { induction lines; [auto|exact IHlines]. }
    unfold load_translation_model.
    destruct (Hmap (snd (loop_outcome X (s, t) (str_split doc) [])))
      as [H1 [H2 [H3 H4]]].
    destruct (decide ((s, t) ∈ model_cache w)).
    + simpl.
      destruct (fst (loop_outcome X (s, t) (str_split doc) []));
        simpl; repeat split; eauto 8.
    + destruct (pipeline_load X s t); simpl.
      * repeat split. exists [EvLoadModel s t]. auto 8.
      * destruct (fst (loop_outcome X (s, t) (str_split doc) []));
          simpl; repeat split;
          (exists (EvLoadModel s t ::
                   map (EvTranslate s t) (snd (loop_outcome X (s, t) (str_split doc) [])));
           rewrite <- app_assoc; simpl;
           unfold loaded_models in *; simpl; rewrite H4; auto 8).
Qed.

(** With a model that can be built, what [translate_subtitles] returns does
    not depend on the world it starts from. *)
Lemma translate_result_any_world
      (X : External) (doc : pystr) (s t : string) (w w0 : World) :
  s = t \/ pipeline_load X s t = None ->
  fst (translate_subtitles X doc s t w) = fst (translate_subtitles X doc s t w0).
Proof.
  intros H. destruct (decide (s = t)) as [->|Hne].
  - rewrite !translate_subtitles_same. reflexivity.
  - destruct H as [H|H]; [contradiction|].
    rewrite !translate_subtitles_ne by exact Hne.
    destruct (load_translation_model_ok X s t w (or_introl H)) as [w1 [es [-> _]]].
    destruct (load_translation_model_ok X s t w0 (or_introl H)) as [w2 [es' [-> _]]].
    simpl. destruct (fst (loop_outcome X (s, t) (str_split doc) [])); reflexivity.
Qed.

(** ** More on the run block *)

(** The run block step by step. *)
Lemma run_block_unfold (X : External) (file : bytes) (key s t : string) (w : World) :
  run_block X file key s t w =
  match extract_audio_to_mp3 X file
          (add_event (EvProgress 10) (add_event (EvProgress 0) w)) with
  | (Raise e, w1) =>
      (Ok tt, add_event (EvError ("An error occurred: " +:+ exn_str e)) w1)
  | (Ok p, w1) =>
      match generate_subtitles X p key (add_event (EvProgress 30) w1) with
      | (Raise e, w2) =>
          (Ok tt, add_event (EvError ("An error occurred: " +:+ exn_str e)) w2)
      | (Ok subtitles, w2) =>
          match translate_subtitles X subtitles s t (add_event (EvProgress 60) w2) with
          | (Raise e, w3) =>
              (Ok tt, add_event (EvError ("An error occurred: " +:+ exn_str e)) w3)
          | (Ok out, w3) =>
              match os_remove X IoRemoveAudio p
                      (add_event EvToast
                         (add_event (EvProgress 100)
                            (set_srt_content out (add_event (EvProgress 90) w3)))) with
              | (Ok _, w5) => (Ok tt, w5)
              | (Raise e, w5) =>
                  (Ok tt, add_event (EvError ("An error occurred: " +:+ exn_str e)) w5)
              end
          end
      end
  end.
Proof.
  unfold run_block, try_except, bind, emit, modify.
  cbn -[extract_audio_to_mp3 generate_subtitles translate_subtitles os_remove].
  destruct (extract_audio_to_mp3 X file _) as [[p|e] w1]; [|reflexivity].
  cbn -[extract_audio_to_mp3 generate_subtitles translate_subtitles os_remove].
  destruct (generate_subtitles X p key _) as [[subtitles|e] w2]; [|reflexivity].
  cbn -[extract_audio_to_mp3 generate_subtitles translate_subtitles os_remove].
  destruct (translate_subtitles X subtitles s t _) as [[out|e] w3]; [|reflexivity].
  cbn -[extract_audio_to_mp3 generate_subtitles translate_subtitles os_remove].
  destruct (os_remove X IoRemoveAudio p _) as [[[]|e] w5]; reflexivity.
Qed.

(** [os.remove] step by step. *)
Lemma os_remove_cases (X : External) (op : io_op) (p : path) (w : World) :
  os_remove X op p w =
  match io_fault X op with
  | Some e => (Raise e, w)
  | None =>
      match fs w !! p with
      | Some _ => (Ok tt, set_fs (delete p) w)
      | None => (Raise (Exn OSError "No such file or directory"), w)
      end
  end.
Proof.
  unfold os_remove, bind, io, raise, ret.
  destruct (io_fault X op); reflexivity.
Qed.

(** X13. When one of the three stages raises, the run block shows the text of
    that exception with [st.error] as its last act, and the subtitles of the
    session are the ones of before the run. *)
Theorem run_block_stage_failure_keeps_subtitles
        (X : External) (file : bytes) (key s t : string) (w : World) (e : exn) :
  first_stage_error X file key s t w = Some e ->
  let w' := snd (run_block X file key s t w) in
  last (trace w') = Some (EvError ("An error occurred: " +:+ exn_str e)) /\
  srt_content w' = srt_content w.
Proof.
  intros Hfail. cbv zeta. unfold first_stage_error in Hfail.
  rewrite run_block_unfold.
  pose proof (extract_audio_frame X file
                (add_event (EvProgress 10) (add_event (EvProgress 0) w))) as Hx.
  cbv zeta in Hx.
  destruct (extract_audio_to_mp3 X file _) as [[p|e1] w1]; simpl in Hx.
  2:{ injection Hfail as ->. simpl. rewrite last_snoc. split; [reflexivity|tauto]. }
  pose proof (generate_subtitles_frame X p key (add_event (EvProgress 30) w1)) as Hg.
  cbv zeta in Hg.
  destruct (generate_subtitles X p key _) as [[subtitles|e2] w2]; simpl in Hg.
  2:{ injection Hfail as ->. simpl. rewrite last_snoc.
      split; [reflexivity|]. destruct Hx as [_ [_ [_ [Hx _]]]].
      destruct Hg as [_ [_ [_ [_ [Hg _]]]]]. congruence. }
  pose proof (translate_subtitles_fields X subtitles s t
                (add_event (EvProgress 60) w2)) as Ht.
  cbv zeta in Ht.
  destruct (translate_subtitles X subtitles s t _) as [[out|e3] w3]; simpl in Ht;
    [discriminate|].
  injection Hfail as ->. simpl. rewrite last_snoc.
  split; [reflexivity|]. destruct Hx as [_ [_ [_ [Hx _]]]].
  destruct Hg as [_ [_ [_ [_ [Hg _]]]]].
  destruct Ht as [_ [_ [_ [_ [Ht _]]]]]. congruence.
Qed.

Lemma run_block_stage_failure_keeps_subtitles_witness :
  let w' := snd (run_block Demo.key_refused Demo.video "sk-demo" "en" "pl"
                   Faults.w_subtitles) in
  last (trace w')
  = Some (EvError ("An error occurred: "
                   +:+ exn_str (Exn ExternalError "Incorrect API key provided"))) /\
  srt_content w' = srt_content Faults.w_subtitles.
Proof.
  apply (run_block_stage_failure_keeps_subtitles Demo.key_refused Demo.video
           "sk-demo" "en" "pl" Faults.w_subtitles).
  vm_compute. reflexivity.
Defined.

(** When no I/O operation of the extraction faults and ffmpeg exits with
    status zero, [extract_audio_to_mp3] returns the audio file, complete, and
    the temporary video file is gone. *)
Lemma extract_audio_ok (X : External) (video_file : bytes) (w : World) :
  first_fault X extraction_ops = None ->
  fst (ffmpeg X video_file) = 0%Z ->
  let run := extract_audio_to_mp3 X video_file w in
  fst run = Ok (S (tmp_counter w), ".mp3") /\
  fs (snd run) !! (S (tmp_counter w), ".mp3") = Some (snd (ffmpeg X video_file)) /\
  fs (snd run) !! (tmp_counter w, ".mp4") = None.
Proof.
  intros Hf Hrc. cbv zeta. unfold first_fault, extraction_ops in Hf.
  unfold_extract. simpl in Hf.
  destruct (io_fault X IoCreateVideoTemp) as [e1|]; simpl in Hf; [discriminate|].
  destruct (io_fault X IoWriteVideo) as [e2|]; simpl in Hf; [discriminate|].
  destruct (io_fault X IoCreateAudioTemp) as [e3|]; simpl in Hf; [discriminate|].
  destruct (io_fault X IoSpawnFfmpeg) as [e4|]; simpl in Hf; [discriminate|].
  destruct (io_fault X IoRemoveVideo) as [e5|]; simpl in Hf; [discriminate|].
  cbn.
  assert (Hpaths : (S (tmp_counter w), ".mp3") <> (tmp_counter w, ".mp4"))
    by (intros [= Hn]; lia).
  rewrite lookup_insert_ne by exact Hpaths. rewrite lookup_insert_eq.
  destruct (ffmpeg X video_file) as [returncode written]. simpl in Hrc.
  subst returncode. cbn.
  rewrite !lookup_insert_ne by exact Hpaths. rewrite lookup_insert_eq. cbn.
  split; [reflexivity|]. split.
  - rewrite lookup_delete_ne by congruence. apply lookup_insert_eq.
  - apply lookup_delete_eq.
Qed.

(** X14. When the extraction succeeds and the transcription or the
    translation raises, whatever the reason, the audio file that the
    extraction made is still on the filesystem after the run block, with all
    that ffmpeg wrote: no path of the run block deletes it but the last line
    of the [try]. *)
Theorem failed_later_stage_leaves_audio
        (X : External) (file : bytes) (key s t : string) (w : World) (e : exn) :
  first_fault X extraction_ops = None ->
  fst (ffmpeg X file) = 0%Z ->
  first_stage_error X file key s t w = Some e ->
  fs (snd (run_block X file key s t w)) !! (S (tmp_counter w), ".mp3")
  = Some (snd (ffmpeg X file)).
Proof.
  intros Hf Hrc Hfail. unfold first_stage_error in Hfail.
  rewrite run_block_unfold.
  pose proof (extract_audio_ok X file
                (add_event (EvProgress 10) (add_event (EvProgress 0) w)) Hf Hrc) as Hx.
  cbv zeta in Hx. simpl in Hx.
  destruct (extract_audio_to_mp3 X file _) as [[p|e1] w1]; simpl in Hx;
    destruct Hx as [Hp [Ha _]]; [|discriminate].
  injection Hp as ->.
  pose proof (generate_subtitles_frame X (S (tmp_counter w), ".mp3") key
                (add_event (EvProgress 30) w1)) as Hg.
  cbv zeta in Hg. destruct Hg as [Hg _].
  destruct (generate_subtitles X _ key _) as [[subtitles|e2] w2]; simpl in Hg.
  2:{ simpl. rewrite Hg. exact Ha. }
  pose proof (translate_subtitles_fields X subtitles s t
                (add_event (EvProgress 60) w2)) as Ht.
  cbv zeta in Ht. destruct Ht as [Ht _].
  destruct (translate_subtitles X subtitles s t _) as [[out|e3] w3]; simpl in Ht;
    [discriminate|].
  simpl. rewrite Ht, Hg. exact Ha.
Qed.

Lemma failed_later_stage_leaves_audio_witness :
  fs (snd (run_block Demo.line_fails Demo.video "sk-demo" "en" "pl" Demo.w0))
    !! (S (tmp_counter Demo.w0), ".mp3")
  = Some (snd (ffmpeg Demo.line_fails Demo.video)).
Proof.
  apply (failed_later_stage_leaves_audio Demo.line_fails Demo.video "sk-demo"
           "en" "pl" Demo.w0
           (Exn RuntimeError "Error during translation: out of memory")).
  - reflexivity.
  - reflexivity.
  - vm_compute. reflexivity.
Defined.

(** X15. When nothing faults, ffmpeg exits with status zero, the service
    answers the audio with subtitles and their translation returns a
    document, the run block ends on the toast, the session holds that
    document, and neither temporary file is left. *)
Theorem run_block_success
        (X : External) (file : bytes) (key s t : string) (w : World)
        (subtitles out : pystr) :
  first_fault X extraction_ops = None ->
  fst (ffmpeg X file) = 0%Z ->
  io_fault X IoOpenAudio = None ->
  whisper X (snd (ffmpeg X file)) (Some key) = Ok subtitles ->
  s = t \/ pipeline_load X s t = None ->
  fst (translate_subtitles X subtitles s t w) = Ok out ->
  io_fault X IoRemoveAudio = None ->
  let w' := snd (run_block X file key s t w) in
  srt_content w' = out /\
  last (trace w') = Some EvToast /\
  fs w' !! (tmp_counter w, ".mp4") = None /\
  fs w' !! (S (tmp_counter w), ".mp3") = None /\
  openai_api_key w' = Some key.
Proof.
  intros Hf Hrc Hopen Hw Hload Htr Hrm. cbv zeta.
  rewrite run_block_unfold.
  pose proof (extract_audio_ok X file
                (add_event (EvProgress 10) (add_event (EvProgress 0) w)) Hf Hrc) as Hx.
  cbv zeta in Hx. simpl in Hx.
  destruct (extract_audio_to_mp3 X file _) as [[p|e1] w1]; simpl in Hx;
    destruct Hx as [Hp [Ha Hv]]; [|discriminate].
  injection Hp as ->.
  rewrite generate_subtitles_cases, Hopen. simpl. rewrite Ha, Hw.
  match goal with
  | |- context [translate_subtitles X subtitles s t ?w2] =>
      pose proof (translate_subtitles_fields X subtitles s t w2) as Ht;
      pose proof (translate_result_any_world X subtitles s t w2 w Hload) as Hres
  end.
  cbv zeta in Ht. destruct Ht as [Hfs [_ [Hkey _]]].
  rewrite Htr in Hres. clear Htr.
  destruct (translate_subtitles X subtitles s t _) as [r3 w3].
  simpl in Hfs, Hkey, Hres. subst r3.
  rewrite os_remove_cases, Hrm. simpl. rewrite Hfs, Ha. simpl.
  split; [reflexivity|]. split; [apply last_snoc|].
  split; [rewrite lookup_delete_ne by (intros [= Hn]; lia); rewrite Hfs; exact Hv|].
  split; [apply lookup_delete_eq|exact Hkey].
Qed.

Lemma run_block_success_witness :
  let w' := snd (run_block Demo.good Demo.video "sk-demo" "en" "pl" Demo.w0) in
  srt_content w' = Demo.srt_pl /\
  last (trace w') = Some EvToast /\
  fs w' !! (tmp_counter Demo.w0, ".mp4") = None /\
  fs w' !! (S (tmp_counter Demo.w0), ".mp3") = None /\
  openai_api_key w' = Some "sk-demo".
Proof.
  apply (run_block_success Demo.good Demo.video "sk-demo" "en" "pl" Demo.w0 Demo.srt).
  - reflexivity.
  - reflexivity.
  - reflexivity.
  - reflexivity.
  - right. reflexivity.
  - vm_compute. reflexivity.
  - reflexivity.
Defined.

Lemma progress_values_add_event (e : event) (w : World) :
  progress_values (trace (add_event e w))
  = progress_values (trace w) ++ progress_values [e].
Proof. unfold progress_values. simpl. rewrite omap_app. reflexivity. Qed.

(** ** More on a run of the script *)

(** The run block keeps the flag of the confirmed key. *)
Lemma run_block_keeps_flag
      (X : External) (file : bytes) (key s t : string) (w : World) :
  api_key_confirmed (snd (run_block X file key s t w)) = api_key_confirmed w.
Proof.
  rewrite run_block_unfold.
  pose proof (extract_audio_frame X file
                (add_event (EvProgress 10) (add_event (EvProgress 0) w))) as Hx.
  cbv zeta in Hx. destruct Hx as [_ [_ [Hx _]]].
  destruct (extract_audio_to_mp3 X file _) as [[p|e1] w1]; simpl in Hx;
    [|exact Hx].
  pose proof (generate_subtitles_frame X p key (add_event (EvProgress 30) w1)) as Hg.
  cbv zeta in Hg. destruct Hg as [_ [_ [_ [Hg _]]]].
  destruct (generate_subtitles X p key _) as [[subtitles|e2] w2]; simpl in Hg;
    [|simpl; congruence].
  pose proof (translate_subtitles_fields X subtitles s t
                (add_event (EvProgress 60) w2)) as Ht.
  cbv zeta in Ht. destruct Ht as [_ [_ [_ [Ht _]]]].
  destruct (translate_subtitles X subtitles s t _) as [[out|e3] w3]; simpl in Ht;
    [|simpl; congruence].
  rewrite os_remove_cases.
  destruct (io_fault X IoRemoveAudio); [|destruct (fs _ !! p)]; simpl; congruence.
Qed.

(** X17. Once the key was confirmed in a session it stays confirmed: no run of
    the script, whatever the request and whatever happens in the pipeline,
    clears the flag, so [st.stop()] does not end the later runs, even when
    the field of the key is empty by then. *)
Theorem confirmed_key_stays_confirmed
        (X : External) (req : Request) (w : World) :
  api_key_confirmed w = true ->
  api_key_confirmed (snd (script X req w)) = true.
Proof.
  intros Hc. unfold script, bind.
  assert (Hk : fst (confirm_key req w) = Ok tt /\
               api_key_confirmed (snd (confirm_key req w)) = true).
  { unfold confirm_key. destruct (confirm_api_key req); [|auto].
    destruct (api_key req); cbn; auto. }
  destruct (confirm_key req w) as [r w1]. simpl in Hk. destruct Hk as [-> Hk].
  rewrite Hk. cbn -[languages_and_run].
  unfold languages_and_run, bind, dict_getitem.
  destruct (language_code_map !! source_language req); [|exact Hk].
  cbn -[run_block].
  destruct (language_code_map !! target_language req); [|exact Hk].
  cbn -[run_block].
  destruct (uploaded_file req); [|exact Hk].
  destruct (create_subtitles_button req); [|exact Hk].
  rewrite run_block_keeps_flag. exact Hk.
Qed.

Lemma confirmed_key_stays_confirmed_witness :
  api_key_confirmed
    (snd (script Demo.key_refused Demo.request Faults.w_subtitles)) = true.
Proof.
  apply (confirmed_key_stays_confirmed Demo.key_refused Demo.request Faults.w_subtitles).
  reflexivity.
Defined.

(** X18. A run of the script starts no stage unless a file is uploaded, the
    button is pressed and the key is confirmed (before the run, or in it with
    a key that is not empty): otherwise the run returns, adds no event of the
    pipeline, and leaves the files, [openai.api_key], the cache of models and
    the subtitles of the session as they were, or ends on the [KeyError] of a
    language lookup with the same world. *)
Theorem script_starts_nothing_unasked
        (X : External) (req : Request) (w : World) :
  uploaded_file req = None \/
  create_subtitles_button req = false \/
  (api_key_confirmed w = false /\
   (confirm_api_key req = false \/ api_key req = EmptyString)) ->
  let w' := snd (script X req w) in
  (exists es, trace w' = trace w ++ es /\
              Forall (fun e => pipeline_event e = false) es) /\
  fs w' = fs w /\
  tmp_counter w' = tmp_counter w /\
  openai_api_key w' = openai_api_key w /\
  model_cache w' = model_cache w /\
  srt_content w' = srt_content w.
Proof.
  intros Hreq. cbv zeta.
  destruct (confirm_key_inv req w) as [Hok [es [Hes [Hpe Hw1]]]].
  assert (Hflag : api_key_confirmed w = false ->
                  confirm_api_key req = false \/ api_key req = EmptyString ->
                  api_key_confirmed (snd (confirm_key req w)) = false).
  { intros Hc Hk. unfold confirm_key.
    destruct (confirm_api_key req) eqn:Eb; [|exact Hc].
    destruct Hk as [Hk|Hk]; [congruence|]. rewrite Hk. exact Hc. }
  unfold script, bind.
  destruct (confirm_key req w) as [r w1]. simpl in *. subst r.
  destruct (api_key_confirmed w1) eqn:Ec; cbn -[languages_and_run];
    [|split; eauto].
  assert (Hnorun : uploaded_file req = None \/ create_subtitles_button req = false).
  { destruct Hreq as [H|[H|[H1 H2]]]; auto.
    discriminate (Hflag H1 H2). }
  assert (Hsame : snd (languages_and_run X req w1) = w1).
  { unfold languages_and_run, bind, dict_getitem.
    destruct (language_code_map !! source_language req); [|reflexivity].
    cbn -[run_block].
    destruct (language_code_map !! target_language req); [|reflexivity].
    cbn -[run_block].
    destruct Hnorun as [-> | Hb]; [reflexivity|].
    rewrite Hb. destruct (uploaded_file req); reflexivity. }
  rewrite Hsame. split; eauto.
Qed.

Lemma script_starts_nothing_unasked_witness :
  let w' := snd (script Demo.good
                   {| api_key := "sk-demo"; confirm_api_key := false;
                      source_language := "English"; uploaded_file := Some Demo.video;
                      target_language := "Polish"; create_subtitles_button := true |}
                   Demo.w0) in
  (exists es, trace w' = trace Demo.w0 ++ es /\
              Forall (fun e => pipeline_event e = false) es) /\
  fs w' = fs Demo.w0 /\
  tmp_counter w' = tmp_counter Demo.w0 /\
  openai_api_key w' = openai_api_key Demo.w0 /\
  model_cache w' = model_cache Demo.w0 /\
  srt_content w' = srt_content Demo.w0.
Proof.
  apply (script_starts_nothing_unasked Demo.good
           {| api_key := "sk-demo"; confirm_api_key := false;
              source_language := "English"; uploaded_file := Some Demo.video;
              target_language := "Polish"; create_subtitles_button := true |}
           Demo.w0).
  right. right. split; [reflexivity|]. left. reflexivity.
Defined.

(** ** The editor *)

(** X19. When the session holds subtitles, the data given to the download
    button is the text in the editor, and the session holds that text
    afterwards, whether the user changed it or not. *)
Theorem editor_offers_editor_text (edited : pystr) (w : World) :
  srt_content w <> [] ->
  editor edited w = (Ok (Some edited), set_srt_content edited w).
Proof.
  intros Hne. unfold editor.
  destruct (srt_content w) as [|c rest] eqn:Es; [congruence|]. simpl.
  destruct (decide (edited <> c :: rest)) as [Hd|Hd]; [reflexivity|].
  assert (edited = c :: rest) as -> by (destruct (decide (edited = c :: rest)); tauto).
  rewrite Es. rewrite <- Es. destruct w. reflexivity.
Qed.

Lemma editor_offers_editor_text_witness :
  editor (lit "1") Faults.w_subtitles
  = (Ok (Some (lit "1")), set_srt_content (lit "1") Faults.w_subtitles).
Proof.
  apply (editor_offers_editor_text (lit "1") Faults.w_subtitles).
  discriminate.
Defined.

(** X20. Emptying the editor empties the session: on the next run neither the
    editor nor the download button is shown, whatever the editor would
    return. *)
Theorem emptied_editor_is_not_shown_again (edited : pystr) (w : World) :
  srt_content w <> [] ->
  editor edited (snd (editor [] w)) = (Ok None, snd (editor [] w)).
Proof.
  intros Hne. unfold editor at 2 3.
  destruct (srt_content w) as [|c rest] eqn:Es; [congruence|]. simpl.
  destruct (decide ([] <> c :: rest)) as [Hd|Hd]; [|exfalso; apply Hd; discriminate].
  reflexivity.
Qed.

Lemma emptied_editor_is_not_shown_again_witness :
  editor (lit "again") (snd (editor [] Faults.w_subtitles))
  = (Ok None, snd (editor [] Faults.w_subtitles)).
Proof.
  apply (emptied_editor_is_not_shown_again (lit "again") Faults.w_subtitles).
  discriminate.
Defined.

(** ** [translate_subtitles] line by line *)

Lemma str_split_app (d1 d2 : pystr) :
  str_split (d1 ++ LF :: d2) = str_split d1 ++ str_split d2.
Proof.
  induction d1 as [|c d1 IH]; simpl; [reflexivity|].
  destruct (c =? LF)%N; rewrite IH; [reflexivity|].
  pose proof (str_split_nonempty d1) as Hne.
  destruct (str_split d1) as [|l ls]; [congruence|reflexivity].
Qed.

Lemma str_join_app (l1 l2 : list pystr) :
  l1 <> [] -> l2 <> [] ->
  str_join (l1 ++ l2) = str_join l1 ++ LF :: str_join l2.
Proof.
  intros H1 H2. induction l1 as [|a l1 IH]; [congruence|].
  destruct l1 as [|b l1].
  - simpl. destruct l2; [congruence|reflexivity].
  - change (str_join ((a :: b :: l1) ++ l2))
      with (a ++ LF :: str_join ((b :: l1) ++ l2)).
    rewrite IH by discriminate.
    change (str_join (a :: b :: l1)) with (a ++ LF :: str_join (b :: l1)).
    rewrite <- app_assoc. reflexivity.
Qed.

(** The loop ends well exactly when the model answers every line sent to
    it, and what it builds is then one item for each line. *)
Lemma loop_outcome_items (X : External) (tr : string * string)
      (lines acc : list pystr) :
  Forall (answered X tr) lines ->
  fst (loop_outcome X tr lines acc) = Ok (acc ++ map (line_item X tr) lines).
Proof.
  intros H. revert acc. induction H as [|l lines Hl _ IH]; intros acc; simpl.
  - rewrite app_nil_r. reflexivity.
  - unfold line_item at 1. unfold answered in Hl.
    destruct (should_translate X l).
    + destruct (Hl eq_refl) as [text Htext]. rewrite Htext.
      specialize (IH (acc ++ [text])).
      destruct (loop_outcome X tr lines (acc ++ [text])) as [r sent].
      simpl in *. rewrite IH, <- app_assoc. reflexivity.
    + rewrite IH, <- app_assoc. reflexivity.
Qed.

Lemma loop_outcome_answered (X : External) (tr : string * string)
      (lines acc out : list pystr) :
  fst (loop_outcome X tr lines acc) = Ok out ->
  Forall (answered X tr) lines.
Proof.
  intros H. destruct (loop_outcome_ok X tr lines acc out H) as [items [_ [HF _]]].
  clear H. induction HF as [|l item lines items Hl _ IH]; constructor; [|exact IH].
  unfold line_outcome in Hl. unfold answered. intros Ht. rewrite Ht in Hl. eauto.
Qed.

(** The result of a translation whose model can be had, without the world. *)
Lemma translate_result_loop (X : External) (doc : pystr) (s t : string) (w : World) :
  s <> t ->
  pipeline_load X s t = None \/ (s, t) ∈ model_cache w ->
  fst (translate_subtitles X doc s t w) =
  match fst (loop_outcome X (s, t) (str_split doc) []) with
  | Ok items => Ok (str_join items)
  | Raise e => Raise (Exn RuntimeError ("Error during translation: " +:+ exn_str e))
  end.
Proof.
  intros Hne Hl. rewrite translate_subtitles_ne by exact Hne.
  destruct (load_translation_model_ok X s t w Hl) as [w1 [es [-> _]]].
  simpl. destruct (fst (loop_outcome X (s, t) (str_split doc) [])); reflexivity.
Qed.

(** The document returned when the model answers every line sent to it. *)
Lemma translate_result_items
      (X : External) (doc : pystr) (s t : string) (w : World) :
  s <> t ->
  pipeline_load X s t = None \/ (s, t) ∈ model_cache w ->
  Forall (answered X (s, t)) (str_split doc) ->
  fst (translate_subtitles X doc s t w)
  = Ok (str_join (map (line_item X (s, t)) (str_split doc))).
Proof.
  intros Hne Hl Ha. rewrite translate_result_loop by assumption.
  rewrite loop_outcome_items by exact Ha. reflexivity.
Qed.

(** X21. For a pair of two different codes whose model can be had, when the
    model answers every line sent to it, the document returned is the input
    translated line by line: the join, in order, of the text of the model
    for each line that passes the test of line 54 and of every other line
    as it is. *)
Theorem translate_subtitles_linewise
        (X : External) (doc : pystr) (s t : string) (w : World) :
  s <> t ->
  pipeline_load X s t = None \/ (s, t) ∈ model_cache w ->
  Forall (answered X (s, t)) (str_split doc) ->
  fst (translate_subtitles X doc s t w)
  = Ok (str_join (map (line_item X (s, t)) (str_split doc))).
Proof.
  intros Hne Hl Ha. apply translate_result_items; assumption.
Qed.

Lemma translate_subtitles_linewise_witness :
  fst (translate_subtitles Demo.good Demo.srt "en" "pl" Demo.w0)
  = Ok (str_join (map (line_item Demo.good ("en", "pl")) (str_split Demo.srt))).
Proof.
  apply (translate_subtitles_linewise Demo.good Demo.srt "en" "pl" Demo.w0).
  - discriminate.
  - left. reflexivity.
  - apply Forall_forall. intros l _ _. eexists. apply demo_good_text.
Defined.

(** X22. Lines are translated one by one, without context: for a pair of two
    different codes whose model can be had, when two documents are each
    translated to a document, the translation of the first, a line feed and
    the second is the translation of the first, a line feed and the
    translation of the second. *)
Theorem translate_subtitles_concat
        (X : External) (d1 d2 o1 o2 : pystr) (s t : string) (w : World) :
  s <> t ->
  pipeline_load X s t = None \/ (s, t) ∈ model_cache w ->
  fst (translate_subtitles X d1 s t w) = Ok o1 ->
  fst (translate_subtitles X d2 s t w) = Ok o2 ->
  fst (translate_subtitles X (d1 ++ LF :: d2) s t w) = Ok (o1 ++ LF :: o2).
Proof.
  intros Hne Hl H1 H2.
  rewrite translate_result_loop in H1, H2 by assumption.
  destruct (fst (loop_outcome X (s, t) (str_split d1) [])) as [i1|] eqn:E1;
    [|discriminate].
  destruct (fst (loop_outcome X (s, t) (str_split d2) [])) as [i2|] eqn:E2;
    [|discriminate].
  injection H1 as <-. injection H2 as <-.
  pose proof (loop_outcome_answered X (s, t) _ _ _ E1) as A1.
  pose proof (loop_outcome_answered X (s, t) _ _ _ E2) as A2.
  rewrite loop_outcome_items in E1, E2 by assumption.
  injection E1 as <-. injection E2 as <-. simpl.
  rewrite translate_result_items; [|exact Hne|exact Hl|].
  - rewrite str_split_app, map_app, str_join_app; [reflexivity| |].
    + intros H. apply map_eq_nil in H. apply (str_split_nonempty d1 H).
    + intros H. apply map_eq_nil in H. apply (str_split_nonempty d2 H).
  - rewrite str_split_app. apply Forall_app. auto.
Qed.

Lemma translate_subtitles_concat_witness :
  fst (translate_subtitles Demo.good (lit "Hello" ++ LF :: lit "1") "en" "pl" Demo.w0)
  = Ok (lit "[pl] Hello" ++ LF :: lit "1").
Proof.
  apply (translate_subtitles_concat Demo.good (lit "Hello") (lit "1")
           (lit "[pl] Hello") (lit "1") "en" "pl" Demo.w0).
  - discriminate.
  - left. reflexivity.
  - vm_compute. reflexivity.
  - vm_compute. reflexivity.
Defined.

(** The name [extract_audio_to_mp3] returns is the name of its audio file. *)
Lemma extract_audio_name (X : External) (video_file : bytes) (w : World) (p : path) :
  fst (extract_audio_to_mp3 X video_file w) = Ok p ->
  p = (S (tmp_counter w), ".mp3").
Proof.
  unfold_extract.
  destruct (io_fault X IoCreateVideoTemp) as [e1|]; cbn.
  { destruct (exn_cls e1); discriminate. }
  destruct (io_fault X IoWriteVideo) as [e2|]; cbn.
  { destruct (exn_cls e2); discriminate. }
  destruct (io_fault X IoCreateAudioTemp) as [e3|]; cbn.
  { destruct (exn_cls e3); discriminate. }
  destruct (io_fault X IoSpawnFfmpeg) as [e4|]; cbn.
  { destruct (exn_cls e4); discriminate. }
  destruct (_ !! (tmp_counter w, ".mp4")); [|discriminate].
  destruct (ffmpeg X _) as [returncode written].
  destruct (returncode =? 0)%Z; cbn; [|discriminate].
  destruct (io_fault X IoRemoveVideo) as [e5|]; cbn.
  { destruct (exn_cls e5); discriminate. }
  destruct (_ !! (tmp_counter w, ".mp4")); cbn; [|discriminate].
  intros [= <-]. reflexivity.
Qed.

Lemma ffmpeg_runs_app (es1 es2 : list event) :
  ffmpeg_runs (es1 ++ es2) = ffmpeg_runs es1 ++ ffmpeg_runs es2.
Proof. apply omap_app. Qed.

Lemma transcribe_calls_app (es1 es2 : list event) :
  transcribe_calls (es1 ++ es2) = transcribe_calls es1 ++ transcribe_calls es2.
Proof. apply omap_app. Qed.

Lemma loaded_models_app (es1 es2 : list event) :
  loaded_models (es1 ++ es2) = loaded_models es1 ++ loaded_models es2.
Proof. apply omap_app. Qed.

Ltac solve_trace_views :=
  cbn [snd trace add_event set_srt_content set_fs];
  repeat match goal with
         | H : trace _ = _ |- _ => rewrite H; clear H
         end;
  rewrite <- ?app_assoc;
  eexists; split; [reflexivity|];
  rewrite ?ffmpeg_runs_app, ?transcribe_calls_app, ?loaded_models_app;
  repeat match goal with
         | H : ffmpeg_runs _ = _ |- _ => rewrite H
         | H : transcribe_calls _ = _ |- _ => rewrite H
         | H : loaded_models _ = _ |- _ => rewrite H
         end;
  simpl; auto.

(** X23. In one run of the run block ffmpeg is run at most once, on the two
    temporary files of the run; the speech-to-text service is called at most
    once, on the audio file of the run and with the key of the request; and
    at most one model is built, the one of the pair of the request. *)
Theorem run_block_calls_each_component_once
        (X : External) (file : bytes) (key s t : string) (w : World) :
  exists es,
    trace (snd (run_block X file key s t w)) = trace w ++ es /\
    (ffmpeg_runs es = [] \/
     ffmpeg_runs es = [((tmp_counter w, ".mp4"), (S (tmp_counter w), ".mp3"))]) /\
    (transcribe_calls es = [] \/
     transcribe_calls es = [((S (tmp_counter w), ".mp3"), Some key)]) /\
    (loaded_models es = [] \/ loaded_models es = [(s, t)]).
Proof.
  rewrite run_block_unfold.
  pose proof (extract_audio_frame X file
                (add_event (EvProgress 10) (add_event (EvProgress 0) w))) as Hx.
  pose proof (extract_audio_name X file
                (add_event (EvProgress 10) (add_event (EvProgress 0) w))) as Hn.
  cbv zeta in Hx. destruct Hx as [_ [_ [_ [_ [_ [_ Hx]]]]]].
  destruct (extract_audio_to_mp3 X file _) as [[p|e1] w1]; simpl in Hx, Hn.
  2:{ destruct Hx as [Hx|Hx]; solve_trace_views. }
  specialize (Hn p eq_refl). subst p.
  pose proof (generate_subtitles_frame X (S (tmp_counter w), ".mp3") key
                (add_event (EvProgress 30) w1)) as Hg.
  cbv zeta in Hg. destruct Hg as [_ [_ [_ [_ [_ Hg]]]]].
  destruct (generate_subtitles X _ key _) as [[subtitles|e2] w2]; simpl in Hg.
  2:{ destruct Hx as [Hx|Hx]; destruct Hg as [Hg|Hg]; solve_trace_views. }
  pose proof (translate_subtitles_fields X subtitles s t
                (add_event (EvProgress 60) w2)) as Ht.
  cbv zeta in Ht.
  destruct Ht as [_ [_ [_ [_ [_ [es3 [Ht [_ [Hf3 [Ht3 Hl3]]]]]]]]]].
  destruct (translate_subtitles X subtitles s t _) as [[out|e3] w3]; simpl in Ht.
  2:{ destruct Hx as [Hx|Hx]; destruct Hg as [Hg|Hg]; destruct Hl3 as [Hl3|Hl3];
        solve_trace_views. }
  rewrite os_remove_cases.
  destruct (io_fault X IoRemoveAudio); [|destruct (fs _ !! _)];
    destruct Hx as [Hx|Hx]; destruct Hg as [Hg|Hg]; destruct Hl3 as [Hl3|Hl3];
    solve_trace_views.
Qed.

(** ** The stripped content of a line *)

Section StrippedContent.

Variable X : External.

Lemma str_lstrip_spaces (ws s : pystr) :
  Forall (fun c => uni_isspace X c = true) ws ->
  str_lstrip (uni_isspace X) (ws ++ s) = str_lstrip (uni_isspace X) s.
Proof.
  induction 1 as [|c ws Hc _ IH]; simpl; [reflexivity|]. rewrite Hc. exact IH.
Qed.

Lemma str_lstrip_nonspace (c : char) (s : pystr) :
  uni_isspace X c = false ->
  str_lstrip (uni_isspace X) (c :: s) = c :: s.
Proof. intros Hc. simpl. rewrite Hc. reflexivity. Qed.

(** [str.strip] gives the stripped content of a line. *)
Lemma str_strip_stripped_content (line : pystr) :
  stripped_content X line (str_strip (uni_isspace X) line).
Proof.
  split; [apply str_strip_decompose|]. unfold str_strip, str_rstrip.
  set (L := str_lstrip (uni_isspace X) line).
  destruct (str_lstrip_decompose (uni_isspace X) (rev L)) as [ws [Hrev _]].
  split.
  - intros c Hc. apply head_Some in Hc as [rest Hc].
    apply (str_lstrip_head (uni_isspace X) line c (rest ++ rev ws)).
    fold L. rewrite <- (rev_involutive L), Hrev, rev_app_distr, Hc. reflexivity.
  - intros c Hc. apply last_Some in Hc as [rest Hc].
    apply (str_lstrip_head (uni_isspace X) (rev L) c (rev rest)).
    rewrite <- (rev_involutive (str_lstrip (uni_isspace X) (rev L))), Hc.
    rewrite rev_app_distr. reflexivity.
Qed.

(** A line has one stripped content only: what [str.strip] gives. *)
Lemma stripped_content_unique (line core : pystr) :
  stripped_content X line core -> core = str_strip (uni_isspace X) line.
Proof.
  intros [[ws1 [ws2 [-> [H1 H2]]]] [Hhead Hlast]].
  unfold str_strip, str_rstrip. rewrite str_lstrip_spaces by exact H1.
  destruct core as [|c cs].
  - simpl.
    assert (E : str_lstrip (uni_isspace X) ws2 = []).
    { clear -H2. induction H2 as [|d ws Hd _ IH]; simpl; [reflexivity|].
      rewrite Hd. exact IH. }
    rewrite E. reflexivity.
  - rewrite <- app_comm_cons.
    rewrite str_lstrip_nonspace by (apply Hhead; reflexivity).
    rewrite app_comm_cons, rev_app_distr.
    rewrite str_lstrip_spaces by (apply Forall_rev, H2).
    destruct (last_is_Some (c :: cs)) as [_ Hl].
    destruct (Hl ltac:(discriminate)) as [d Hd].
    pose proof (Hlast d Hd) as Hsp.
    apply last_Some in Hd as [rest Hd]. rewrite Hd, rev_app_distr. simpl.
    rewrite Hsp. simpl. rewrite rev_involutive. reflexivity.
Qed.

(** The test of line 54 holds of exactly the lines whose stripped content is
    not empty and not made of digits only and that do not hold ["-->"]. *)
Lemma should_translate_passes_line_test (line : pystr) :
  should_translate X line = true <-> passes_line_test X line.
Proof.
  rewrite should_translate_spec. unfold translatable, passes_line_test. split.
  - intros H. exists (str_strip (uni_isspace X) line).
    split; [apply str_strip_stripped_content|exact H].
  - intros [core [Hc H]]. apply stripped_content_unique in Hc. subst core. exact H.
Qed.

End StrippedContent.

(** Splitting a join of items gives the pieces of the items, in order. *)
Lemma str_split_join_pieces (items : list pystr) :
  items <> [] ->
  str_split (str_join items) = concat (map str_split items).
Proof.
  induction items as [|a items IH]; [congruence|]. intros _.
  destruct items as [|b items].
  - simpl. rewrite app_nil_r. reflexivity.
  - change (str_join (a :: b :: items)) with (a ++ LF :: str_join (b :: items)).
    rewrite str_split_app, IH by discriminate. reflexivity.
Qed.

(** An item without line feed is a line of the join. *)
Lemma item_is_line_of_join (items : list pystr) (i : nat) (item : pystr) :
  items !! i = Some item -> LF ∉ item -> item ∈ str_split (str_join items).
Proof.
  intros Hi Hnl. rewrite str_split_join_pieces by (intros ->; discriminate).
  apply list_elem_of_In, in_concat. exists (str_split item). split.
  - apply in_map, list_elem_of_In, list_elem_of_lookup. eauto.
  - rewrite str_split_no_LF by exact Hnl. left. reflexivity.
Qed.

(** ** The lines sent and the lines kept by [translate_subtitles] *)

(** C9, as the code has it. For a pair of two different codes, the model is
    called only on lines of the input whose whitespace-stripped content is
    not empty and not made of digits only and that do not hold ["-->"]; when
    the translation returns, the model was called on exactly these lines,
    once for each in their order, and every other line (blank, all digits
    once stripped, or holding ["-->"]) is an item of the document returned
    as it was in the input, hence one of its lines. *)
Theorem translate_sends_lines_passing_test
        (X : External) (doc : pystr) (s t : string) (w w' : World)
        (r : result pystr) :
  s <> t ->
  translate_subtitles X doc s t w = (r, w') ->
  (forall line, should_translate X line = true <-> passes_line_test X line) /\
  exists es,
    trace w' = trace w ++ es /\
    (forall line, line ∈ sent_lines es ->
                  line ∈ str_split doc /\ passes_line_test X line) /\
    (forall out, r = Ok out ->
       sent_lines es = filter (fun l => should_translate X l = true) (str_split doc) /\
       (forall line, line ∈ str_split doc ->
                     (line ∈ sent_lines es <-> passes_line_test X line)) /\
       exists items,
         out = str_join items /\
         length items = length (str_split doc) /\
         forall i line,
           str_split doc !! i = Some line ->
           ~ passes_line_test X line ->
           items !! i = Some line /\ line ∈ str_split out).
Proof.
  intros Hne Hrun. split; [apply should_translate_passes_line_test|].
  destruct (translate_subtitles_sent X doc s t w Hne) as [es [Htr Hsent]].
  rewrite Hrun in Htr. simpl in Htr.
  exists es. split; [exact Htr|]. split.
  - intros line Hin. destruct (Hsent line Hin) as [H1 H2].
    split; [exact H1|apply should_translate_passes_line_test, H2].
  - intros out ->.
    destruct (translate_subtitles_ok X doc s t w w' out Hne Hrun)
      as [es' [items [Htr' [-> [HF Hs]]]]].
    assert (es' = es) as -> by (apply (app_inv_head (trace w)); congruence).
    split; [exact Hs|]. split.
    + intros line Hin.
      rewrite Hs, list_elem_of_filter, should_translate_passes_line_test.
      tauto.
    + exists items. split; [reflexivity|].
      split; [symmetry; eapply Forall2_length, HF|].
      intros i line Hi Hnt.
      destruct (Forall2_lookup_l _ _ _ _ _ HF Hi) as [item [Hitem Hrel]].
      unfold line_outcome in Hrel.
      destruct (should_translate X line) eqn:Et.
      * apply should_translate_passes_line_test in Et. contradiction.
      * subst item. split; [exact Hitem|].
        apply (item_is_line_of_join items i line Hitem).
        pose proof (str_split_pieces doc) as Hp. rewrite Forall_forall in Hp.
        apply Hp, list_elem_of_lookup. eauto.
Qed.

Lemma translate_sends_lines_passing_test_witness :
  sent_lines (trace (snd (translate_subtitles Demo.good Demo.srt "en" "pl" Demo.w0)))
  = filter (fun l => should_translate Demo.good l = true) (str_split Demo.srt).
Proof.
  destruct (translate_sends_lines_passing_test Demo.good Demo.srt "en" "pl" Demo.w0
              (snd (translate_subtitles Demo.good Demo.srt "en" "pl" Demo.w0))
              (Ok Demo.srt_pl))
    as [_ [es [Htr [_ Hok]]]].
  - discriminate.
  - vm_compute. reflexivity.
  - destruct (Hok Demo.srt_pl eq_refl) as [Hs _].
    rewrite Htr. simpl. exact Hs.
Defined.

(** C9, counterexample. No model can be built for the pair in
    [Faults.no_model]. The line ["Hello world"] of [Demo.srt] has a stripped
    content that is not empty and not made of digits only, and holds no
    ["-->"]; the translation from ["en"] to ["pl"] raises, and no line was
    sent to a model. *)
Lemma passing_line_not_sent_counterexample :
  "en" <> "pl" /\
  str_split Demo.srt !! 2 = Some (lit "Hello world") /\
  passes_line_test Faults.no_model (lit "Hello world") /\
  fst (translate_subtitles Faults.no_model Demo.srt "en" "pl" Demo.w0)
  = Raise (Exn RuntimeError "Error during translation: model not found") /\
  sent_lines (trace (snd (translate_subtitles Faults.no_model Demo.srt "en" "pl" Demo.w0)))
  = [].
Proof.
  split; [discriminate|]. split; [vm_compute; reflexivity|].
  split; [apply should_translate_passes_line_test; vm_compute; reflexivity|].
  split; vm_compute; reflexivity.
Qed.




(** ** The language codes of a run *)




(** ** The end of the run block *)

(** X12. The run block never raises, and it shows what it caught: when a
    stage, or the removal of the audio file after the stages, raises inside
    the [try], the run block returns and its last act is [st.error] with
    ["An error occurred: "] and the text of that exception; when nothing
    raises, it returns and the last thing it shows is the toast. *)
Theorem run_block_never_raises
        (X : External) (file : bytes) (key s t : string) (w : World) :
  fst (run_block X file key s t w) = Ok tt /\
  last (trace (snd (run_block X file key s t w)))
  = match run_block_error X file key s t w with
    | Some e => Some (EvError ("An error occurred: " +:+ exn_str e))
    | None => Some EvToast
    end.
Proof.
  rewrite run_block_unfold. unfold run_block_error.
  destruct (extract_audio_to_mp3 X file _) as [[p|e1] w1].
  2:{ simpl. rewrite last_snoc. auto. }
  destruct (generate_subtitles X p key _) as [[subtitles|e2] w2].
  2:{ simpl. rewrite last_snoc. auto. }
  destruct (translate_subtitles X subtitles s t _) as [[out|e3] w3].
  2:{ simpl. rewrite last_snoc. auto. }
  rewrite !os_remove_cases.
  destruct (io_fault X IoRemoveAudio); [|destruct (fs _ !! _)];
    simpl; rewrite ?last_snoc; auto.
Qed.

(** X16. The progress bar of the run block follows the stages: a run shows 0
    and 10 and stops there when the extraction raises, goes to 30 and stops
    there when the transcription raises, goes to 60 and stops there when the
    translation raises, and shows 0, 10, 30, 60, 90, 100 when the three
    stages succeed. *)
Theorem run_block_progress_milestones
        (X : External) (file : bytes) (key s t : string) (w : World) :
  progress_values (trace (snd (run_block X file key s t w)))
  = progress_values (trace w)
    ++ match first_failed_stage X file key s t w with
       | Some Extraction => [0; 10]
       | Some Transcription => [0; 10; 30]
       | Some Translation => [0; 10; 30; 60]
       | None => [0; 10; 30; 60; 90; 100]
       end.
Proof.
  rewrite run_block_unfold. unfold first_failed_stage.
  pose proof (extract_audio_frame X file
                (add_event (EvProgress 10) (add_event (EvProgress 0) w))) as Hx.
  cbv zeta in Hx. destruct Hx as [_ [_ [_ [_ [_ [_ Hx]]]]]].
  assert (Hx' : forall w1,
    trace w1 = trace (add_event (EvProgress 10) (add_event (EvProgress 0) w)) \/
    trace w1 = trace (add_event (EvProgress 10) (add_event (EvProgress 0) w))
               ++ [EvFfmpeg (tmp_counter w, ".mp4") (S (tmp_counter w), ".mp3")] ->
    progress_values (trace w1) = progress_values (trace w) ++ [0; 10]).
  { intros w1 [->| ->]; unfold progress_values; simpl;
      rewrite ?omap_app; simpl; rewrite <- ?app_assoc, ?app_nil_r; reflexivity. }
  destruct (extract_audio_to_mp3 X file _) as [[p|e1] w1]; simpl in Hx;
    apply Hx' in Hx; clear Hx'.
  2:{ cbn [snd]. rewrite progress_values_add_event, Hx. cbn.
      rewrite app_nil_r. reflexivity. }
  pose proof (generate_subtitles_frame X p key (add_event (EvProgress 30) w1)) as Hg.
  cbv zeta in Hg. destruct Hg as [_ [_ [_ [_ [_ Hg]]]]].
  assert (Hg' : forall w2,
    trace w2 = trace (add_event (EvProgress 30) w1) \/
    trace w2 = trace (add_event (EvProgress 30) w1) ++ [EvTranscribe p (Some key)] ->
    progress_values (trace w2) = progress_values (trace w) ++ [0; 10; 30]).
  { intros w2 [->| ->]; rewrite ?(omap_app _ _ [EvTranscribe p (Some key)]);
      unfold progress_values in *; simpl; rewrite ?omap_app; simpl;
      rewrite Hx, <- ?app_assoc, ?app_nil_r; reflexivity. }
  destruct (generate_subtitles X p key _) as [[subtitles|e2] w2]; simpl in Hg;
    apply Hg' in Hg; clear Hg'.
  2:{ cbn [snd]. rewrite progress_values_add_event, Hg. cbn.
      rewrite app_nil_r. reflexivity. }
  pose proof (translate_subtitles_fields X subtitles s t
                (add_event (EvProgress 60) w2)) as Ht.
  cbv zeta in Ht. destruct Ht as [_ [_ [_ [_ [_ [es [Ht [Hps _]]]]]]]].
  assert (Ht' : forall w3,
    trace w3 = trace (add_event (EvProgress 60) w2) ++ es ->
    progress_values (trace w3) = progress_values (trace w) ++ [0; 10; 30; 60]).
  { intros w3 ->. unfold progress_values in *. simpl. rewrite !omap_app, Hps, Hg.
    simpl. rewrite <- ?app_assoc, ?app_nil_r. reflexivity. }
  destruct (translate_subtitles X subtitles s t _) as [[out|e3] w3]; simpl in Ht;
    apply Ht' in Ht; clear Ht'.
  2:{ cbn [snd]. rewrite progress_values_add_event, Ht. cbn.
      rewrite app_nil_r. reflexivity. }
  rewrite os_remove_cases.
  destruct (io_fault X IoRemoveAudio); [|destruct (fs _ !! p)]; simpl;
    unfold progress_values in *; simpl; rewrite ?omap_app; simpl;
    unfold add_event; simpl; rewrite ?omap_app; simpl; rewrite Ht;
    rewrite <- ?app_assoc; reflexivity.
Qed.
